(** * Ratio computation and benchmarking engine of [ratioin.py]

    A shallow embedding of the program: [calculate_ratios],
    [calculate_benchmark_averages], the analysis loop of [index], the
    fetching of the line items and the request handler, followed by the
    properties the specification states about them.

    Conventions of the embedding.
    - The two calculators are embedded over two kinds of numbers.  Over
      exact rationals ([Qc], canonical fractions, so that equal numbers are
      equal terms; a value that may be [None] is an [option Qc]), for what
      the program does by structure: which entries a dict has, which branch
      is taken, which expression is evaluated.  And, in module [B64], over
      the numbers Python computes with, ints of any size and binary64
      floats, for what rests on the arithmetic itself: exceptions, infinite
      and NaN values, the order of a sum, bounds on a mean.  There a float
      is a [spec_float], its operations are those of IEEE 754 with rounding
      to nearest, ties to even, and [sum] adds from left to right with one
      rounding per addition.
    - A Python [dict] is an association list in insertion order, with the
      assignment [d[k] = v] keeping the position of a key already present.
    - An operation that can raise in Python returns in the [result] monad;
      "never raises" is the statement that a computation returns [Ok].
    - A formatted number ([f"{x:.2f}"]) is kept as the number under a
      constructor of [text] rather than as its decimal digits. *)

From Stdlib Require Import List String Ascii Bool Arith Lia ZArith.
From Stdlib Require Import QArith Qcanon Qcabs Field.
From Stdlib Require Import Permutation SpecFloat.
Import ListNotations.

Local Open Scope Qc_scope.
Local Open Scope list_scope.
Local Open Scope string_scope.

(** ** Python primitives *)

Module Py.

(** Exceptions the modelled fragment can raise. *)
Inductive exn : Type :=
| TypeError
| ZeroDivisionError
| KeyError (key : string).

Inductive result (A : Type) : Type :=
| Ok (a : A)
| Raise (e : exn).
Arguments Ok {A} a.
Arguments Raise {A} e.

Definition bind {A B : Type} (c : result A) (k : A -> result B) : result B :=
  match c with
  | Ok a => k a
  | Raise e => Raise e
  end.

(** [for x in xs: s = body s x], stopping at the first exception. *)
Fixpoint for_in {S A : Type} (xs : list A) (body : S -> A -> result S) (s : S)
  : result S :=
  match xs with
  | [] => Ok s
  | x :: rest => bind (body s x) (for_in rest body)
  end.

(** A number or [None]. *)
Abbreviation value := (option Qc).

Definition int (z : Z) : Qc := Q2Qc (inject_Z z).

Definition Qc_eqb (x y : Qc) : bool := Qeq_bool x y.

Definition Qc_ltb (x y : Qc) : bool :=
  match Qccompare x y with
  | Lt => true
  | _ => false
  end.

Definition is_None (v : value) : bool :=
  match v with
  | None => true
  | Some _ => false
  end.

(** [v == 0]: comparing [None] with a number is [False], not an error. *)
Definition eq0 (v : value) : bool :=
  match v with
  | Some x => Qc_eqb x 0
  | None => false
  end.

(** [v or 0]: [None] and [0] are falsy. *)
Definition or0 (v : value) : value :=
  match v with
  | Some x => if Qc_eqb x 0 then Some 0 else Some x
  | None => Some 0
  end.

Definition arith (op : Qc -> Qc -> Qc) (a b : value) : result value :=
  match a, b with
  | Some x, Some y => Ok (Some (op x y))
  | _, _ => Raise TypeError
  end.

Definition add : value -> value -> result value := arith Qcplus.
Definition sub : value -> value -> result value := arith Qcminus.
Definition mul : value -> value -> result value := arith Qcmult.

(** True division [a / b]. *)
Definition div (a b : value) : result value :=
  match a, b with
  | Some x, Some y =>
      if Qc_eqb y 0 then Raise ZeroDivisionError else Ok (Some (x / y))
  | _, _ => Raise TypeError
  end.

Definition abs (a : value) : result value :=
  match a with
  | Some x => Ok (Some (Qcabs x))
  | None => Raise TypeError
  end.

Definition compare (op : Qc -> Qc -> bool) (a b : value) : result bool :=
  match a, b with
  | Some x, Some y => Ok (op x y)
  | _, _ => Raise TypeError
  end.

Definition lt : value -> value -> result bool := compare Qc_ltb.
Definition gt : value -> value -> result bool :=
  compare (fun x y => Qc_ltb y x).

(** [sum(vs)]: left to right, starting from [0]. *)
Definition sum (vs : list value) : result value :=
  for_in vs add (Some 0).

Definition len {A : Type} (xs : list A) : value :=
  Some (int (Z.of_nat (List.length xs))).

(** [xs.append(x)]. *)
Definition append {A : Type} (xs : list A) (x : A) : list A := (xs ++ [x])%list.

(** *** Dictionaries *)

Definition dict (V : Type) : Type := list (string * V).

(** The entry stored under [k], if any. *)
Fixpoint lookup {V : Type} (d : dict V) (k : string) : option V :=
  match d with
  | [] => None
  | (k', v) :: rest => if String.eqb k' k then Some v else lookup rest k
  end.

(** [d.get(k)]: a missing key reads as [None]. *)
Definition get {A : Type} (d : dict (option A)) (k : string) : option A :=
  match lookup d k with
  | Some v => v
  | None => None
  end.

(** [d[k]]: a missing key raises. *)
Definition getitem {V : Type} (d : dict V) (k : string) : result V :=
  match lookup d k with
  | Some v => Ok v
  | None => Raise (KeyError k)
  end.

(** [d[k] = v]. *)
Fixpoint set {V : Type} (d : dict V) (k : string) (v : V) : dict V :=
  match d with
  | [] => [(k, v)]
  | (k', v') :: rest =>
      if String.eqb k' k then (k', v) :: rest else (k', v') :: set rest k v
  end.

(** [d.update(e)]. *)
Definition update {V : Type} (d e : dict V) : dict V :=
  fold_left (fun acc kv => set acc (fst kv) (snd kv)) e d.

Definition keys {V : Type} (d : dict V) : list string := map fst d.
Definition items {V : Type} (d : dict V) : list (string * V) := d.

(** *** Strings *)

Definition is_lower (c : ascii) : bool :=
  let n := nat_of_ascii c in (97 <=? n)%nat && (n <=? 122)%nat.
Definition is_upper (c : ascii) : bool :=
  let n := nat_of_ascii c in (65 <=? n)%nat && (n <=? 90)%nat.
Definition to_upper (c : ascii) : ascii :=
  if is_lower c then ascii_of_nat (nat_of_ascii c - 32) else c.
Definition to_lower (c : ascii) : ascii :=
  if is_upper c then ascii_of_nat (nat_of_ascii c + 32) else c.

(** [s.replace(a, b)] for single characters. *)
Fixpoint replace (a b : ascii) (s : string) : string :=
  match s with
  | EmptyString => EmptyString
  | String c rest =>
      String (if Ascii.eqb c a then b else c) (replace a b rest)
  end.

(** [s.title()]: a letter that follows a letter is lowered, any other
    letter is raised. *)
Fixpoint title_from (previous_is_cased : bool) (s : string) : string :=
  match s with
  | EmptyString => EmptyString
  | String c rest =>
      if is_lower c || is_upper c
      then String (if previous_is_cased then to_lower c else to_upper c)
                  (title_from true rest)
      else String c (title_from false rest)
  end.

Definition title (s : string) : string := title_from false s.

End Py.

Abbreviation result := Py.result.
Abbreviation Ok := Py.Ok.
Abbreviation Raise := Py.Raise.
Abbreviation value := Py.value.
Abbreviation dict := Py.dict.

Notation "x <- c ;; k" := (Py.bind c (fun x => k))
  (at level 61, c at next level, right associativity).

(** ** The program *)

(** [HIGHER_IS_BETTER]: [True], [False] or [None] per ratio. *)
Definition HIGHER_IS_BETTER : dict (option bool) :=
  [ ("current_ratio", Some true); ("quick_ratio", Some true);
    ("debt_to_equity", Some false); ("debt_to_assets", Some false);
    ("interest_coverage", Some true); ("gross_profit_margin", Some true);
    ("net_profit_margin", Some true); ("roe", Some true); ("roa", Some true);
    ("asset_turnover", Some true);
    ("pe_ratio", None); ("ev_to_ebitda", None); ("price_to_book", None) ].

(** [safe_divide], the helper local to [calculate_ratios]. *)
Definition safe_divide (num den : value) : result value :=
  if Py.is_None den || Py.eq0 den || Py.is_None num then Ok None else Py.div num den.

(** [calculate_ratios(data)]; [data] is [None] or a dict of line items. *)
Definition calculate_ratios (data : option (dict value)) : result (dict value) :=
  match data with
  | None => Ok []
  | Some [] => Ok []
  | Some data =>
      let ratios := [] in
      r <- safe_divide (Py.get data "current_assets") (Py.get data "current_liabilities") ;;
      let ratios := Py.set ratios "current_ratio" r in
      quick_assets <- Py.sub (Py.or0 (Py.get data "current_assets")) (Py.or0 (Py.get data "inventory")) ;;
      r <- safe_divide quick_assets (Py.get data "current_liabilities") ;;
      let ratios := Py.set ratios "quick_ratio" r in
      r <- safe_divide (Py.get data "total_debt") (Py.get data "total_equity") ;;
      let ratios := Py.set ratios "debt_to_equity" r in
      r <- safe_divide (Py.get data "total_debt") (Py.get data "total_assets") ;;
      let ratios := Py.set ratios "debt_to_assets" r in
      r <- safe_divide (Py.get data "ebit") (Py.get data "interest_expense") ;;
      let ratios := Py.set ratios "interest_coverage" r in
      r <- safe_divide (Py.get data "gross_profit") (Py.get data "total_revenue") ;;
      let ratios := Py.set ratios "gross_profit_margin" r in
      r <- safe_divide (Py.get data "net_income") (Py.get data "total_revenue") ;;
      let ratios := Py.set ratios "net_profit_margin" r in
      r <- safe_divide (Py.get data "net_income") (Py.get data "avg_total_equity") ;;
      let ratios := Py.set ratios "roe" r in
      r <- safe_divide (Py.get data "net_income") (Py.get data "avg_total_assets") ;;
      let ratios := Py.set ratios "roa" r in
      r <- safe_divide (Py.get data "total_revenue") (Py.get data "avg_total_assets") ;;
      let ratios := Py.set ratios "asset_turnover" r in
      r <- safe_divide (Py.get data "current_share_price") (Py.get data "eps") ;;
      let ratios := Py.set ratios "pe_ratio" r in
      ev <- Py.add (Py.or0 (Py.get data "market_cap")) (Py.or0 (Py.get data "total_debt")) ;;
      enterprise_value <- Py.sub ev (Py.or0 (Py.get data "cash")) ;;
      r <- safe_divide enterprise_value (Py.get data "ebitda") ;;
      let ratios := Py.set ratios "ev_to_ebitda" r in
      r <- safe_divide (Py.get data "current_share_price") (Py.get data "book_value_per_share") ;;
      let ratios := Py.set ratios "price_to_book" r in
      Ok ratios
  end.

(** The comprehension
    [[ratios[name] for ratios in competitor_ratios_list
      if ratios.get(name) is not None]]. *)
Fixpoint valid_values_of (name : string) (competitor_ratios_list : list (dict value))
  : result (list value) :=
  match competitor_ratios_list with
  | [] => Ok []
  | ratios :: rest =>
      if negb (Py.is_None (Py.get ratios name))
      then v <- Py.getitem ratios name ;;
           vs <- valid_values_of name rest ;;
           Ok (v :: vs)
      else valid_values_of name rest
  end.

(** [calculate_benchmark_averages(competitor_ratios_list)]. *)
Definition calculate_benchmark_averages (competitor_ratios_list : list (dict value))
  : result (dict value) :=
  match competitor_ratios_list with
  | [] => Ok []
  | first :: _ =>
      let all_ratio_names := Py.keys first in
      Py.for_in all_ratio_names
        (fun benchmark_ratios name =>
           valid_values <- valid_values_of name competitor_ratios_list ;;
           average <- match valid_values with
                      | [] => Ok None
                      | _ :: _ => s <- Py.sum valid_values ;;
                                  Py.div s (Py.len valid_values)
                      end ;;
           Ok (Py.set benchmark_ratios name average))
        []
  end.

(** Cells of the result table.  The program stores strings; a formatted
    number is kept as the number it was formatted from. *)
Inductive text : Type :=
| Lit (s : string)                        (* a literal *)
| Fixed2 (x : Qc)                         (* [f"{x:.2f}"] *)
| Signed1 (label : string) (diff : Qc).   (* [f"LABEL ({diff:+.1f}%)"] *)

(** Formatting [None] with a float format raises. *)
Definition format_fixed2 (v : value) : result text :=
  match v with
  | Some x => Ok (Fixed2 x)
  | None => Raise Py.TypeError
  end.

Definition format_signed1 (label : string) (v : value) : result text :=
  match v with
  | Some x => Ok (Signed1 label x)
  | None => Raise Py.TypeError
  end.

(** The body of the loop of [index] that builds [analysis_list], one turn
    for the item [(ratio_name, company_value)].  [direction_policy] is the
    table the program reads directions from ([HIGHER_IS_BETTER]). *)
Definition analysis_step (direction_policy : dict (option bool))
  (benchmarks : dict value) (analysis_list : list (dict text))
  (item : string * value) : result (list (dict text)) :=
  let (ratio_name, company_value) := item in
  let row := [("ratio_name", Lit (Py.title (Py.replace "_" " " ratio_name)))] in
  if Py.is_None company_value then
    let row := Py.update row
                 [("company_value", Lit "N/A"); ("benchmark_value", Lit "-");
                  ("analysis", Lit "Data missing");
                  ("color_class", Lit "text-gray-500")] in
    Ok (Py.append analysis_list row)
  else
    let benchmark_value := Py.get benchmarks ratio_name in
    cell <- format_fixed2 company_value ;;
    let row := Py.set row "company_value" cell in
    if Py.is_None benchmark_value then
      let row := Py.update row
                   [("benchmark_value", Lit "N/A");
                    ("analysis", Lit "No benchmark data");
                    ("color_class", Lit "text-gray-500")] in
      Ok (Py.append analysis_list row)
    else
      cell <- format_fixed2 benchmark_value ;;
      let row := Py.set row "benchmark_value" cell in
      let direction := Py.get direction_policy ratio_name in
      diff <- (if negb (Py.eq0 benchmark_value)
               then d <- Py.sub company_value benchmark_value ;;
                    a <- Py.abs benchmark_value ;;
                    q <- Py.div d a ;;
                    Py.mul q (Some (Py.int 100))
               else Ok (Some (Py.int 0))) ;;
      row <- match direction with
             | None =>
                 cell <- format_signed1 "Peers" diff ;;
                 let row := Py.set row "analysis" cell in
                 Ok (Py.set row "color_class" (Lit "text-blue-600"))
             | Some direction =>
                 above <- Py.gt company_value benchmark_value ;;
                 good <- (if above && direction then Ok true
                          else below <- Py.lt company_value benchmark_value ;;
                               Ok (below && negb direction)) ;;
                 if good : bool
                 then cell <- format_signed1 "GOOD" diff ;;
                      let row := Py.set row "analysis" cell in
                      Ok (Py.set row "color_class" (Lit "text-green-600"))
                 else cell <- format_signed1 "POOR" diff ;;
                      let row := Py.set row "analysis" cell in
                      Ok (Py.set row "color_class" (Lit "text-red-600"))
             end ;;
      Ok (Py.append analysis_list row).

(** The loop itself: [for ratio_name, company_value in company_ratios.items()]. *)
Definition analysis_loop (direction_policy : dict (option bool))
  (company_ratios benchmarks : dict value) : result (list (dict text)) :=
  Py.for_in (Py.items company_ratios)
    (analysis_step direction_policy benchmarks) [].

(** As [index] runs it, with the program's own table. *)
Definition index_analysis_list (company_ratios benchmarks : dict value)
  : result (list (dict text)) :=
  analysis_loop HIGHER_IS_BETTER company_ratios benchmarks.

(** ** Vocabulary of the specification *)

(** The fixed ratio identifiers, in canonical order. *)
Definition ratio_names : list string :=
  [ "current_ratio"; "quick_ratio"; "debt_to_equity"; "debt_to_assets";
    "interest_coverage"; "gross_profit_margin"; "net_profit_margin";
    "roe"; "roa"; "asset_turnover"; "pe_ratio"; "ev_to_ebitda";
    "price_to_book" ].

(** A line item of facts that may themselves be absent. *)
Definition line_item (data : option (dict value)) (key : string) : value :=
  match data with
  | Some d => Py.get d key
  | None => None
  end.

Definition number_or_0 (v : value) : Qc :=
  match v with
  | Some x => x
  | None => 0
  end.

(** What a ratio divides: a line item, or one of the two derived amounts. *)
Inductive operand : Type :=
| Item (key : string)
| QuickAssets
| EnterpriseValue.

Definition operand_value (data : option (dict value)) (o : operand) : value :=
  match o with
  | Item key => line_item data key
  | QuickAssets =>
      Some (number_or_0 (line_item data "current_assets")
            - number_or_0 (line_item data "inventory"))
  | EnterpriseValue =>
      Some (number_or_0 (line_item data "market_cap")
            + number_or_0 (line_item data "total_debt")
            - number_or_0 (line_item data "cash"))
  end.

(** Numerator and denominator of every ratio, as [calculate_ratios] passes
    them to [safe_divide]. *)
Definition ratio_operands : list (string * (operand * string)) :=
  [ ("current_ratio", (Item "current_assets", "current_liabilities"));
    ("quick_ratio", (QuickAssets, "current_liabilities"));
    ("debt_to_equity", (Item "total_debt", "total_equity"));
    ("debt_to_assets", (Item "total_debt", "total_assets"));
    ("interest_coverage", (Item "ebit", "interest_expense"));
    ("gross_profit_margin", (Item "gross_profit", "total_revenue"));
    ("net_profit_margin", (Item "net_income", "total_revenue"));
    ("roe", (Item "net_income", "avg_total_equity"));
    ("roa", (Item "net_income", "avg_total_assets"));
    ("asset_turnover", (Item "total_revenue", "avg_total_assets"));
    ("pe_ratio", (Item "current_share_price", "eps"));
    ("ev_to_ebitda", (EnterpriseValue, "ebitda"));
    ("price_to_book", (Item "current_share_price", "book_value_per_share")) ].

(** The quotient of two optional numbers, undefined where the division is. *)
Definition quotient (num den : value) : value :=
  match num, den with
  | Some x, Some y => if Py.Qc_eqb y 0 then None else Some (x / y)
  | _, _ => None
  end.

Definition ratio_of (data : option (dict value))
  (entry : string * (operand * string)) : string * value :=
  (fst entry,
   quotient (operand_value data (fst (snd entry)))
            (line_item data (snd (snd entry)))).

(** The values peers define for one identifier, in peer order. *)
Definition defined_values (name : string) (peers : list (dict value)) : list Qc :=
  flat_map (fun ratios => match Py.get ratios name with
                          | Some v => [v]
                          | None => []
                          end) peers.

Definition total (vs : list Qc) : Qc := fold_left Qcplus vs 0.

Definition mean (vs : list Qc) : value :=
  match vs with
  | [] => None
  | _ :: _ => Some (total vs / Py.int (Z.of_nat (List.length vs)))
  end.

(** The benchmark in closed form: one mean per name, assigned in order. *)
Definition benchmark_of (names : list string) (peers : list (dict value))
  : dict value :=
  fold_left (fun benchmark_ratios name =>
               Py.set benchmark_ratios name (mean (defined_values name peers)))
            names [].




(** The verdicts of the specification, read off a row of the table. *)
Inductive verdict : Type := Good | Poor | Neutral | DataMissing | NoBenchmark.

Definition verdict_of (row : dict text) : option verdict :=
  match Py.lookup row "analysis" with
  | Some (Lit s) =>
      if s =? "Data missing" then Some DataMissing
      else if s =? "No benchmark data" then Some NoBenchmark
      else None
  | Some (Signed1 label _) =>
      if label =? "GOOD" then Some Good
      else if label =? "POOR" then Some Poor
      else if label =? "Peers" then Some Neutral
      else None
  | _ => None
  end.

(** The directions of the specification, read off the program's table:
    [True], [False] and [None] (or no entry). *)
Inductive direction : Type := HigherIsBetter | LowerIsBetter | NoDirection.

Definition direction_of (direction_policy : dict (option bool))
  (ratio_name : string) : direction :=
  match Py.get direction_policy ratio_name with
  | Some true => HigherIsBetter
  | Some false => LowerIsBetter
  | None => NoDirection
  end.

(** The percentage deviation a row reports, if it reports one. *)
Definition deviation_of (row : dict text) : option Qc :=
  match Py.lookup row "analysis" with
  | Some (Signed1 _ diff) => Some diff
  | _ => None
  end.

Definition display_name (ratio_name : string) : text :=
  Lit (Py.title (Py.replace "_" " " ratio_name)).

(** The row the loop appends for one item, in closed form. *)
Definition row_for (direction_policy : dict (option bool))
  (benchmarks : dict value) (item : string * value) : dict text :=
  let name := display_name (fst item) in
  match snd item with
  | None =>
      [("ratio_name", name); ("company_value", Lit "N/A");
       ("benchmark_value", Lit "-"); ("analysis", Lit "Data missing");
       ("color_class", Lit "text-gray-500")]
  | Some t =>
      match Py.get benchmarks (fst item) with
      | None =>
          [("ratio_name", name); ("company_value", Fixed2 t);
           ("benchmark_value", Lit "N/A");
           ("analysis", Lit "No benchmark data");
           ("color_class", Lit "text-gray-500")]
      | Some b =>
          let diff := if Py.Qc_eqb b 0 then 0
                      else (t - b) / Qcabs b * Py.int 100 in
          let (label, colour) :=
            match Py.get direction_policy (fst item) with
            | None => ("Peers", "text-blue-600")
            | Some true =>
                if Py.Qc_ltb b t then ("GOOD", "text-green-600")
                else ("POOR", "text-red-600")
            | Some false =>
                if Py.Qc_ltb t b then ("GOOD", "text-green-600")
                else ("POOR", "text-red-600")
            end in
          [("ratio_name", name); ("company_value", Fixed2 t);
           ("benchmark_value", Fixed2 b); ("analysis", Signed1 label diff);
           ("color_class", Lit colour)]
      end
  end.

(** Sample inputs. *)
Definition facts_a : option (dict value) :=
  Some [ ("current_assets", Some (Py.int 200));
         ("current_liabilities", Some (Py.int 100)) ].

Definition facts_b : option (dict value) :=
  Some [ ("inventory", Some (Py.int 50));
         ("current_liabilities", Some (Py.int 100)) ].

(** ** The rest of the program *)

(** *** The part of pandas the program uses

    A [Series] maps row labels to numbers; a [DataFrame] has row labels and
    columns, each column a series. *)

Module Frame.

Abbreviation series := (dict Qc).

Record t : Type := { index : list string; columns : list series }.

(** [df.empty]: no rows or no columns. *)
Definition empty (df : t) : bool :=
  match index df, columns df with
  | [], _ => true
  | _ :: _, [] => true
  | _ :: _, _ :: _ => false
  end.

(** [label in df.index]. *)
Definition has_row (df : t) (label : string) : bool :=
  existsb (String.eqb label) (index df).

(** [df.iloc[:, j]]; there is no value when the column does not exist
    (Python raises). *)
Definition iloc_column (df : t) (j : nat) : option series :=
  nth_error (columns df) j.

(** [s.get(label)]. *)
Definition get (s : series) (label : string) : value := Py.lookup s label.

(** [s.get(label, 0)]. *)
Definition get_or_0 (s : series) (label : string) : value :=
  match Py.lookup s label with
  | Some x => Some x
  | None => Some 0
  end.

End Frame.

(** *** [get_financial_data] *)

(** What reading an attribute of the [yfinance] ticker gives: a value, or an
    exception raised while fetching. *)
Inductive fetched (A : Type) : Type :=
| Got (a : A)
| Broke.
Arguments Got {A} a.
Arguments Broke {A}.

(** The three attributes [get_financial_data] reads.  An exception raised
    by [yf.Ticker] itself counts as [info] breaking. *)
Record provider : Type :=
  { info : fetched (dict value);
    balance_sheet : fetched Frame.t;
    income_stmt : fetched Frame.t }.

(** What the queue items and [all_data] hold: [None], a dict of line items,
    or an error message. *)
Inductive entry : Type :=
| NoData
| Data (d : dict value)
| Message (s : string).

(** Inside [try]: [None] stands for an exception on its way to [except]. *)
Definition access {A : Type} (f : fetched A) : option A :=
  match f with
  | Got a => Some a
  | Broke => None
  end.

Definition caught {A : Type} (r : result A) : option A :=
  match r with
  | Ok a => Some a
  | Raise _ => None
  end.

Definition attempt {A B : Type} (c : option A) (k : A -> option B) : option B :=
  match c with
  | Some a => k a
  | None => None
  end.

Notation "x <~ c ;; k" := (attempt c (fun x => k))
  (at level 61, c at next level, right associativity).

Definition is_empty {A : Type} (xs : list A) : bool :=
  match xs with
  | [] => true
  | _ :: _ => false
  end.

(** [a or b] on numbers and [None]. *)
Definition or_else (a b : value) : value :=
  match a with
  | Some x => if Py.Qc_eqb x 0 then b else a
  | None => b
  end.

(** The dict literal [{ticker_symbol: None, 'error': message}]. *)
Definition failure_item (ticker_symbol message : string) : dict entry :=
  Py.set (Py.set [] ticker_symbol NoData) "error" (Message message).

(** The dict literal bound to [data]. *)
Definition financial_record (info : dict value)
  (bs_curr bs_prev is_curr : Frame.series) : option (dict value) :=
  avg_total_assets <~
    caught (s <- Py.add (Frame.get_or_0 bs_curr "Total Assets")
                        (Frame.get_or_0 bs_prev "Total Assets") ;;
            Py.div s (Some (Py.int 2))) ;;
  avg_total_equity <~
    caught (s <- Py.add (Frame.get_or_0 bs_curr "Stockholders Equity")
                        (Frame.get_or_0 bs_prev "Stockholders Equity") ;;
            Py.div s (Some (Py.int 2))) ;;
  Some [ ("current_assets", Frame.get bs_curr "Current Assets");
         ("current_liabilities", Frame.get bs_curr "Current Liabilities");
         ("inventory", Frame.get bs_curr "Inventory");
         ("total_debt", Frame.get bs_curr "Total Debt");
         ("total_equity", Frame.get bs_curr "Stockholders Equity");
         ("cash", Frame.get bs_curr "Cash And Cash Equivalents");
         ("total_assets", Frame.get bs_curr "Total Assets");
         ("total_revenue", Frame.get is_curr "Total Revenue");
         ("gross_profit", Frame.get is_curr "Gross Profit");
         ("ebit", Frame.get is_curr "EBIT");
         ("ebitda", Py.get info "ebitda");
         ("interest_expense", Frame.get is_curr "Interest Expense");
         ("net_income", Frame.get is_curr "Net Income");
         ("avg_total_assets", avg_total_assets);
         ("avg_total_equity", avg_total_equity);
         ("current_share_price",
          or_else (Py.get info "currentPrice") (Py.get info "previousClose"));
         ("eps", Py.get info "trailingEps");
         ("market_cap", Py.get info "marketCap");
         ("book_value_per_share", Py.get info "bookValue") ].

(** [get_financial_data(ticker_symbol, data_queue)]: the item it puts on the
    queue, given what the ticker's attributes give. *)
Definition get_financial_data (ticker_symbol : string) (ticker : provider)
  : dict entry :=
  let tried : option (dict entry) :=
    info <~ access (info ticker) ;;
    if is_empty info || Py.is_None (Py.get info "trailingEps")
    then Some (failure_item ticker_symbol
                 ("Invalid or delisted ticker: " ++ ticker_symbol
                  ++ ". Could not fetch data."))
    else
      balance_sheet <~ access (balance_sheet ticker) ;;
      income_stmt <~ access (income_stmt ticker) ;;
      if Frame.empty balance_sheet || Frame.empty income_stmt
         || negb (Frame.has_row balance_sheet "Stockholders Equity")
      then Some (failure_item ticker_symbol
                   ("Could not fetch complete financial statements for "
                    ++ ticker_symbol ++ "."))
      else if (List.length (Frame.columns balance_sheet) <? 2)%nat
      then Some (failure_item ticker_symbol
                   ("Not enough historical data for " ++ ticker_symbol
                    ++ " to calculate averages."))
      else
        bs_curr <~ Frame.iloc_column balance_sheet 0 ;;
        bs_prev <~ Frame.iloc_column balance_sheet 1 ;;
        is_curr <~ Frame.iloc_column income_stmt 0 ;;
        data <~ financial_record info bs_curr bs_prev is_curr ;;
        Some [(ticker_symbol, Data data)]
  in
  match tried with
  | Some item => item
  | None =>
      failure_item ticker_symbol
        ("An error occurred fetching data for " ++ ticker_symbol
         ++ ". It may be an invalid ticker.")
  end.

(** *** [index] *)

Inductive request : Type :=
| GET
| POST (ticker : option string) (competitor_tickers : list string).

(** The three error texts; [errors] is interpolated into the last two. *)
Inductive message : Type :=
| PleaseSelect
| MainTickerFailed (ticker : string) (errors : list entry)
| NoCompetitorData (errors : list entry).

Inductive results : Type :=
| Error (m : message)
| Analysis (ticker : string) (competitors : list string)
           (analysis : list (dict text)).

(** The arguments handed to the template, [company_list] (always
    [NSE_COMPANIES]) apart. *)
Record page : Type :=
  { page_results : option results;
    selected_ticker : option string;
    selected_competitors : list string }.

(** An exception that leaves [index]. *)
Inductive crash : Type :=
| Exception (e : Py.exn)
| AttributeError.

Definition run {A : Type} (r : result A) : crash + A :=
  match r with
  | Ok a => inr a
  | Raise e => inl (Exception e)
  end.

Definition and_then {A B : Type} (c : crash + A) (k : A -> crash + B)
  : crash + B :=
  match c with
  | inr a => k a
  | inl e => inl e
  end.

Notation "x <-- c ;; k" := (and_then c (fun x => k))
  (at level 61, c at next level, right associativity).

Definition truthy (e : entry) : bool :=
  match e with
  | NoData => false
  | Data d => negb (is_empty d)
  | Message s => negb (s =? "")
  end.

(** [d.get(k)] on a dict of entries. *)
Definition entry_get (d : dict entry) (k : string) : entry :=
  match Py.lookup d k with
  | Some e => e
  | None => NoData
  end.

(** One turn of the loop that empties the queue. *)
Definition drain_step (state : dict entry * list entry) (item : dict entry)
  : result (dict entry * list entry) :=
  let (all_data, errors) := state in
  errors <- (if truthy (entry_get item "error")
             then e <- Py.getitem item "error" ;; Ok (Py.append errors e)
             else Ok errors) ;;
  Ok (Py.update all_data item, errors).

(** [calculate_ratios] applied to whatever [all_data] holds. *)
Definition calculate_ratios_of (e : entry) : crash + dict value :=
  match e with
  | NoData => run (calculate_ratios None)
  | Data d => run (calculate_ratios (Some d))
  | Message s => if s =? "" then inr [] else inl AttributeError
  end.

(** [[calculate_ratios(all_data[comp]) for comp in competitor_tickers
      if all_data.get(comp)]]. *)
Fixpoint competitor_ratios (all_data : dict entry)
  (competitor_tickers : list string) : crash + list (dict value) :=
  match competitor_tickers with
  | [] => inr []
  | comp :: rest =>
      if truthy (entry_get all_data comp)
      then e <-- run (Py.getitem all_data comp) ;;
           ratios <-- calculate_ratios_of e ;;
           others <-- competitor_ratios all_data rest ;;
           inr (ratios :: others)
      else competitor_ratios all_data rest
  end.

(** [index()], for a request and the items found on the queue once every
    thread has been joined, in the order the loop takes them off. *)
Definition index (r : request) (drained : list (dict entry)) : crash + page :=
  match r with
  | GET =>
      inr {| page_results := None;
             selected_ticker := Some "RELIANCE.NS";
             selected_competitors := ["TCS.NS"; "INFY.NS"; "HDFCBANK.NS"] |}
  | POST ticker competitor_tickers =>
      let render results :=
        {| page_results := Some results;
           selected_ticker := ticker;
           selected_competitors := competitor_tickers |} in
      match ticker with
      | None => inr (render (Error PleaseSelect))
      | Some symbol =>
          if (symbol =? "") || is_empty competitor_tickers
          then inr (render (Error PleaseSelect))
          else
            state <-- run (Py.for_in drained drain_step ([], [])) ;;
            let (all_data, errors) := state : dict entry * list entry in
            match Py.lookup all_data symbol with
            | None | Some NoData =>
                inr (render (Error (MainTickerFailed symbol errors)))
            | Some company_data =>
                company_ratios <-- calculate_ratios_of company_data ;;
                competitor_ratios_list <--
                  competitor_ratios all_data competitor_tickers ;;
                if is_empty competitor_ratios_list
                then inr (render (Error (NoCompetitorData errors)))
                else
                  benchmarks <--
                    run (calculate_benchmark_averages competitor_ratios_list) ;;
                  analysis_list <--
                    run (index_analysis_list company_ratios benchmarks) ;;
                  inr (render (Analysis symbol competitor_tickers analysis_list))
            end
      end
  end.

(** The items the threads started by [index] put on the queue, in the order
    the threads were started; [tickers] is what each thread's ticker gives. *)
Definition thread_items (all_tickers : list string) (tickers : list provider)
  : list (dict entry) :=
  map (fun tp => get_financial_data (fst tp) (snd tp))
      (combine all_tickers tickers).

(** The line items [calculate_ratios] reads, in the order of the dict that
    [get_financial_data] builds. *)
Definition line_item_keys : list string :=
  [ "current_assets"; "current_liabilities"; "inventory"; "total_debt";
    "total_equity"; "cash"; "total_assets"; "total_revenue"; "gross_profit";
    "ebit"; "ebitda"; "interest_expense"; "net_income"; "avg_total_assets";
    "avg_total_equity"; "current_share_price"; "eps"; "market_cap";
    "book_value_per_share" ].

(** The colour class that goes with each verdict. *)
Definition colour_of (v : verdict) : string :=
  match v with
  | Good => "text-green-600"
  | Poor => "text-red-600"
  | Neutral => "text-blue-600"
  | DataMissing | NoBenchmark => "text-gray-500"
  end.

(** The mean of a row over the two most recent periods, a missing row
    counting as 0 in each. *)
Definition average_of (current previous : Frame.series) (label : string) : Qc :=
  (number_or_0 (Frame.get current label)
   + number_or_0 (Frame.get previous label)) / Py.int 2.

(** The line items [index] finds for a ticker symbol in what that ticker's
    thread put on the queue, if they are there. *)
Definition company_data (ticker_symbol : string) (ticker : provider)
  : option (dict value) :=
  match Py.lookup (get_financial_data ticker_symbol ticker) ticker_symbol with
  | Some (Data d) => Some d
  | _ => None
  end.

(** What [get_financial_data] needs in order to put line items on the
    queue: nothing raised, a non-empty [info] with trailingEps, two
    non-empty statements, a Stockholders Equity row and two balance sheet
    periods. *)
Definition complete (ticker : provider) : Prop :=
  exists i bs inc,
    info ticker = Got i /\ balance_sheet ticker = Got bs
    /\ income_stmt ticker = Got inc
    /\ i <> [] /\ Py.get i "trailingEps" <> None
    /\ Frame.index bs <> [] /\ Frame.index inc <> []
    /\ Frame.columns inc <> []
    /\ In "Stockholders Equity" (Frame.index bs)
    /\ (2 <= List.length (Frame.columns bs))%nat.

(** What [all_data] holds for a ticker symbol after its item was merged:
    the line items, or [None]. *)
Definition entry_for (ticker_symbol : string) (ticker : provider) : entry :=
  match company_data ticker_symbol ticker with
  | Some d => Data d
  | None => NoData
  end.

(** The ratio set of line items that have entries, in closed form. *)
Definition computed_ratios (d : dict value) : dict value :=
  map (ratio_of (Some d)) ratio_operands.

(** What [index] hands to the template for a POST. *)
Definition rendered (symbol : string) (competitor_tickers : list string)
  (r : results) : page :=
  {| page_results := Some r;
     selected_ticker := Some symbol;
     selected_competitors := competitor_tickers |}.

(** The error entry an item adds to [errors], if any. *)
Definition errors_of (item : dict entry) : list entry :=
  if truthy (entry_get item "error") then [entry_get item "error"] else [].

(** The line items of those tickers, among [tickers], that gave some. *)
Definition fetched_data (tickers : list (string * provider))
  : list (dict value) :=
  flat_map (fun tp => match company_data (fst tp) (snd tp) with
                      | Some d => [d]
                      | None => []
                      end) tickers.

(** The tickers, among [tickers], that gave no line items. *)
Definition failed (tickers : list (string * provider))
  : list (string * provider) :=
  filter (fun tp => match company_data (fst tp) (snd tp) with
                    | Some _ => false
                    | None => true
                    end) tickers.

(** A run of [index] for a POST of [symbol] and [competitor_tickers]:
    a symbol and at least one competitor were given, no symbol occurs twice
    and none is the word 'error', each thread's ticker gave what [main] and
    [others] say, and [drained] is what the threads put on the queue, in any
    order. *)
Definition run_of (symbol : string) (competitor_tickers : list string)
  (main : provider) (others : list provider) (drained : list (dict entry))
  : Prop :=
  symbol <> "" /\ competitor_tickers <> []
  /\ NoDup (symbol :: competitor_tickers)
  /\ ~ In "error" (symbol :: competitor_tickers)
  /\ List.length others = List.length competitor_tickers
  /\ Permutation drained
       (thread_items (symbol :: competitor_tickers) (main :: others)).


Definition is_message (e : entry) : Prop :=
  exists m, e = Message m /\ m <> "".

(** A sample of what a ticker gives. *)
Definition sample_balance_sheet : Frame.t :=
  {| Frame.index := ["Current Assets"; "Current Liabilities";
                     "Stockholders Equity"];
     Frame.columns :=
       [ [ ("Current Assets", Py.int 200); ("Current Liabilities", Py.int 100);
           ("Stockholders Equity", Py.int 50) ];
         [ ("Current Assets", Py.int 100); ("Current Liabilities", Py.int 100);
           ("Stockholders Equity", Py.int 30) ] ] |}.

Definition sample_income_stmt : Frame.t :=
  {| Frame.index := ["Net Income"];
     Frame.columns := [ [("Net Income", Py.int 20)] ] |}.

Definition sample_ticker : provider :=
  {| info := Got [ ("trailingEps", Some (Py.int 2));
                   ("previousClose", Some (Py.int 30)) ];
     balance_sheet := Got sample_balance_sheet;
     income_stmt := Got sample_income_stmt |}.

Definition broken_ticker : provider :=
  {| info := Got [("trailingEps", Some (Py.int 2))];
     balance_sheet := Broke;
     income_stmt := Got sample_income_stmt |}.


(** ** The program in binary floating point

    The same two functions over the numbers Python computes with: ints of
    any size and binary64 floats.  Here rounding, overflow to infinity, NaN
    and [OverflowError] are part of the model. *)

Module B64.

Inductive exn : Type :=
| TypeError
| ZeroDivisionError
| OverflowError
| KeyError (key : string).

Inductive result (A : Type) : Type :=
| Ok (a : A)
| Raise (e : exn).
Arguments Ok {A} a.
Arguments Raise {A} e.

Definition bind {A B : Type} (c : result A) (k : A -> result B) : result B :=
  match c with
  | Ok a => k a
  | Raise e => Raise e
  end.

Declare Scope b64_scope.
Notation "x <- c ;; k" := (bind c (fun x => k))
  (at level 61, c at next level, right associativity) : b64_scope.
Local Open Scope b64_scope.

Fixpoint for_in {S A : Type} (xs : list A) (body : S -> A -> result S) (s : S)
  : result S :=
  match xs with
  | [] => Ok s
  | x :: rest => bind (body s x) (for_in rest body)
  end.

(** *** Floats *)

(** A binary64 float: a signed zero, a signed infinity, NaN, or
    [(-1)^s * m * 2^e]. *)
Abbreviation float := spec_float.

Definition fadd : float -> float -> float := SFadd 53 1024.
Definition fsub : float -> float -> float := SFsub 53 1024.
Definition fdiv : float -> float -> float := SFdiv 53 1024.

(** [0.0]. *)
Definition zero : float := S754_zero false.

(** [x == 0.0]: true of both zeros, false of NaN. *)
Definition is_zero (x : float) : bool := SFeqb x zero.

Definition is_infinite (x : float) : bool :=
  match x with
  | S754_infinity _ => true
  | _ => false
  end.

(** The float nearest to [m * 2^e], ties to even; an infinity beyond the
    range. *)
Definition nearest (m e : Z) : float := binary_normalize 53 1024 m e false.

(** An integer as a mantissa with exponent 0, not rounded. *)
Definition unrounded (z : Z) : float :=
  match z with
  | Z0 => S754_zero false
  | Zpos m => S754_finite false m 0
  | Zneg m => S754_finite true m 0
  end.


(** *** Numbers *)

(** A Python number: an [int] or a [float]. *)
Inductive number : Type :=
| Int (z : Z)
| Float (x : float).

(** A number or [None]. *)
Abbreviation value := (option number).

(** A ratio: a float or [None] (true division gives a float). *)
Abbreviation ratio := (option float).

(** [float(n)]: an int beyond the range of floats raises. *)
Definition to_float (n : number) : result float :=
  match n with
  | Float x => Ok x
  | Int z => if is_infinite (nearest z 0) then Raise OverflowError
             else Ok (nearest z 0)
  end.

Definition is_None {A : Type} (v : option A) : bool :=
  match v with
  | None => true
  | Some _ => false
  end.

(** [v == 0]: comparing [None] with a number is [False], not an error. *)
Definition eq0 (v : value) : bool :=
  match v with
  | Some (Int z) => Z.eqb z 0
  | Some (Float x) => is_zero x
  | None => false
  end.

(** [v or 0]: [None], [0], [0.0] and [-0.0] are falsy and give the int [0];
    NaN is truthy. *)
Definition or0 (v : value) : value :=
  if is_None v || eq0 v then Some (Int 0) else v.

(** [a + b] and [a - b]: exact on two ints; with a float among them the
    other operand is converted first. *)
Definition arith (int_op : Z -> Z -> Z) (float_op : float -> float -> float)
  (a b : value) : result value :=
  match a, b with
  | Some (Int x), Some (Int y) => Ok (Some (Int (int_op x y)))
  | Some m, Some n =>
      x <- to_float m ;;
      y <- to_float n ;;
      Ok (Some (Float (float_op x y)))
  | _, _ => Raise TypeError
  end.

Definition add : value -> value -> result value := arith Z.add fadd.
Definition sub : value -> value -> result value := arith Z.sub fsub.

(** True division [a / b].  Of two ints it is the float nearest to the
    quotient, and raises when that is beyond the range.  Otherwise both
    operands are converted and divided as floats.  A divisor equal to zero
    raises; an int converts to a zero float only when it is [0]. *)
Definition div (a b : value) : result float :=
  match a, b with
  | Some (Int x), Some (Int y) =>
      if Z.eqb y 0 then Raise ZeroDivisionError
      else let q := fdiv (unrounded x) (unrounded y) in
           if is_infinite q then Raise OverflowError else Ok q
  | Some m, Some n =>
      x <- to_float m ;;
      y <- to_float n ;;
      if eq0 b then Raise ZeroDivisionError else Ok (fdiv x y)
  | _, _ => Raise TypeError
  end.

(** [d[k]]: a missing key raises. *)
Definition getitem {V : Type} (d : dict V) (k : string) : result V :=
  match Py.lookup d k with
  | Some v => Ok v
  | None => Raise (KeyError k)
  end.

(** [sum(vs)] of ratio values: left to right from the int [0], which adds
    to a float as [0.0]; a [None] among them raises. *)
Definition sum (vs : list ratio) : result float :=
  for_in vs (fun s v => match v with
                        | Some x => Ok (fadd s x)
                        | None => Raise TypeError
                        end) zero.

(** [s / len(vs)]: the length of a list is a machine-size int, which
    converts to a float as it is; it is zero only for the empty list. *)
Definition div_len {A : Type} (s : float) (vs : list A) : result float :=
  match vs with
  | [] => Raise ZeroDivisionError
  | _ :: _ => Ok (fdiv s (nearest (Z.of_nat (List.length vs)) 0))
  end.

(** *** The two functions *)

(** [safe_divide], the helper local to [calculate_ratios]. *)
Definition safe_divide (num den : value) : result ratio :=
  if is_None den || eq0 den || is_None num then Ok None
  else q <- div num den ;; Ok (Some q).

(** [calculate_ratios(data)]; [data] is [None] or a dict of line items. *)
Definition calculate_ratios (data : option (dict value)) : result (dict ratio) :=
  match data with
  | None => Ok []
  | Some [] => Ok []
  | Some data =>
      let ratios := [] in
      r <- safe_divide (Py.get data "current_assets") (Py.get data "current_liabilities") ;;
      let ratios := Py.set ratios "current_ratio" r in
      quick_assets <- sub (or0 (Py.get data "current_assets")) (or0 (Py.get data "inventory")) ;;
      r <- safe_divide quick_assets (Py.get data "current_liabilities") ;;
      let ratios := Py.set ratios "quick_ratio" r in
      r <- safe_divide (Py.get data "total_debt") (Py.get data "total_equity") ;;
      let ratios := Py.set ratios "debt_to_equity" r in
      r <- safe_divide (Py.get data "total_debt") (Py.get data "total_assets") ;;
      let ratios := Py.set ratios "debt_to_assets" r in
      r <- safe_divide (Py.get data "ebit") (Py.get data "interest_expense") ;;
      let ratios := Py.set ratios "interest_coverage" r in
      r <- safe_divide (Py.get data "gross_profit") (Py.get data "total_revenue") ;;
      let ratios := Py.set ratios "gross_profit_margin" r in
      r <- safe_divide (Py.get data "net_income") (Py.get data "total_revenue") ;;
      let ratios := Py.set ratios "net_profit_margin" r in
      r <- safe_divide (Py.get data "net_income") (Py.get data "avg_total_equity") ;;
      let ratios := Py.set ratios "roe" r in
      r <- safe_divide (Py.get data "net_income") (Py.get data "avg_total_assets") ;;
      let ratios := Py.set ratios "roa" r in
      r <- safe_divide (Py.get data "total_revenue") (Py.get data "avg_total_assets") ;;
      let ratios := Py.set ratios "asset_turnover" r in
      r <- safe_divide (Py.get data "current_share_price") (Py.get data "eps") ;;
      let ratios := Py.set ratios "pe_ratio" r in
      ev <- add (or0 (Py.get data "market_cap")) (or0 (Py.get data "total_debt")) ;;
      enterprise_value <- sub ev (or0 (Py.get data "cash")) ;;
      r <- safe_divide enterprise_value (Py.get data "ebitda") ;;
      let ratios := Py.set ratios "ev_to_ebitda" r in
      r <- safe_divide (Py.get data "current_share_price") (Py.get data "book_value_per_share") ;;
      let ratios := Py.set ratios "price_to_book" r in
      Ok ratios
  end.

(** The comprehension
    [[ratios[name] for ratios in competitor_ratios_list
      if ratios.get(name) is not None]]. *)
Fixpoint valid_values_of (name : string) (competitor_ratios_list : list (dict ratio))
  : result (list ratio) :=
  match competitor_ratios_list with
  | [] => Ok []
  | ratios :: rest =>
      if negb (is_None (Py.get ratios name))
      then v <- getitem ratios name ;;
           vs <- valid_values_of name rest ;;
           Ok (v :: vs)
      else valid_values_of name rest
  end.

(** [calculate_benchmark_averages(competitor_ratios_list)]. *)
Definition calculate_benchmark_averages (competitor_ratios_list : list (dict ratio))
  : result (dict ratio) :=
  match competitor_ratios_list with
  | [] => Ok []
  | first :: _ =>
      let all_ratio_names := Py.keys first in
      for_in all_ratio_names
        (fun benchmark_ratios name =>
           valid_values <- valid_values_of name competitor_ratios_list ;;
           average <- match valid_values with
                      | [] => Ok None
                      | _ :: _ => s <- sum valid_values ;;
                                  q <- div_len s valid_values ;;
                                  Ok (Some q)
                      end ;;
           Ok (Py.set benchmark_ratios name average))
        []
  end.

(** *** Vocabulary *)

Definition line_item (data : option (dict value)) (key : string) : value :=
  match data with
  | Some d => Py.get d key
  | None => None
  end.

(** No line item is an int. *)
Definition floats_only (data : option (dict value)) : bool :=
  match data with
  | Some d => forallb (fun kv => match snd kv with
                                 | Some (Int _) => false
                                 | _ => true
                                 end) d
  | None => true
  end.

(** A value that is not an int, the int [0] apart. *)
Definition float_or_0 (v : value) : bool :=
  match v with
  | Some (Int z) => Z.eqb z 0
  | _ => true
  end.

(** [c] returns a value that satisfies [P], or raises an exception that
    satisfies [E]. *)
Definition outcome {A : Type} (c : result A) (P : A -> Prop) (E : exn -> Prop)
  : Prop :=
  match c with
  | Ok a => P a
  | Raise e => E e
  end.

(** The numerator of a ratio, as [calculate_ratios] computes it before it
    calls [safe_divide]. *)
Definition numerator (data : option (dict value)) (o : operand) : result value :=
  match o with
  | Item key => Ok (line_item data key)
  | QuickAssets =>
      sub (or0 (line_item data "current_assets"))
          (or0 (line_item data "inventory"))
  | EnterpriseValue =>
      ev <- add (or0 (line_item data "market_cap"))
                (or0 (line_item data "total_debt")) ;;
      sub ev (or0 (line_item data "cash"))
  end.

(** The values peers define for one identifier, in peer order. *)
Definition defined_values (name : string) (peers : list (dict ratio)) : list float :=
  flat_map (fun ratios => match Py.get ratios name with
                          | Some v => [v]
                          | None => []
                          end) peers.

Definition total (vs : list float) : float := fold_left fadd vs zero.

(** The mean as the program computes it: the sum from left to right,
    divided by the count. *)
Definition mean (vs : list float) : ratio :=
  match vs with
  | [] => None
  | _ :: _ => Some (fdiv (total vs) (nearest (Z.of_nat (List.length vs)) 0))
  end.

(** The benchmark in closed form: one mean per name, assigned in order. *)
Definition benchmark_of (names : list string) (peers : list (dict ratio))
  : dict ratio :=
  fold_left (fun benchmark_ratios name =>
               Py.set benchmark_ratios name (mean (defined_values name peers)))
            names [].

(** Float literals: [m * 10^e] rounded once, as Python reads a decimal. *)
Definition decimal (m : Z) (e : Z) : float :=
  match e with
  | Zneg _ => fdiv (unrounded m) (unrounded (10 ^ (- e)))
  | _ => nearest (m * 10 ^ e) 0
  end.




Definition facts_a : option (dict value) :=
  Some [ ("current_assets", Some (Float (decimal 200 0)));
         ("current_liabilities", Some (Float (decimal 100 0))) ].

Definition facts_b : option (dict value) :=
  Some [ ("inventory", Some (Float (decimal 50 0)));
         ("current_liabilities", Some (Float (decimal 100 0))) ].

(** A ratio set that carries only roe. *)
Definition roe_only (x : float) : dict ratio := [("roe", Some x)].

(** What a computation returned, the empty dict if it raised. *)
Definition returned {V : Type} (c : result (dict V)) : dict V :=
  match c with
  | Ok d => d
  | Raise _ => []
  end.

End B64.

(** ** Numbers *)

Lemma Qc_eqb_eq (x y : Qc) : Py.Qc_eqb x y = true <-> x = y.
Proof.
  unfold Py.Qc_eqb. rewrite Qeq_bool_iff. split.
  - apply Qc_is_canon.
  - intros ->. reflexivity.
Qed.

Lemma Qc_eqb_false (x y : Qc) : Py.Qc_eqb x y = false <-> x <> y.
Proof.
  rewrite <- Qc_eqb_eq. destruct (Py.Qc_eqb x y); split; congruence.
Qed.

Lemma Qc_ltb_lt (x y : Qc) : Py.Qc_ltb x y = true <-> x < y.
Proof.
  unfold Py.Qc_ltb. rewrite Qclt_alt.
  destruct (Qccompare x y); split; congruence.
Qed.



Lemma int_pos (z : Z) : (0 < z)%Z -> 0 < Py.int z.
Proof.
  intros H. unfold Py.int, Qclt. cbn [this Q2Qc].
  rewrite !Qred_correct. unfold Qlt; simpl. lia.
Qed.

Lemma or0_number (v : value) : Py.or0 v = Some (number_or_0 v).
Proof.
  destruct v as [x|]; simpl; [|reflexivity].
  destruct (Py.Qc_eqb x 0) eqn:E; [|reflexivity].
  apply Qc_eqb_eq in E. now subst.
Qed.

(** ** The ratio calculator *)

Lemma safe_divide_quotient (num den : value) :
  safe_divide num den = Ok (quotient num den).
Proof.
  destruct num as [x|], den as [y|]; unfold safe_divide; simpl; try reflexivity.
  all: destruct (Py.Qc_eqb y 0); reflexivity.
Qed.

(** [calculate_ratios] in closed form: the empty dict for absent or empty
    facts, otherwise one quotient per entry of [ratio_operands]. *)
Lemma calculate_ratios_closed (data : option (dict value)) :
  calculate_ratios data =
  Ok match data with
     | None | Some [] => []
     | Some (_ :: _) => map (ratio_of data) ratio_operands
     end.
Proof.
  destruct data as [[|e d]|]; try reflexivity.
  unfold calculate_ratios.
  rewrite !or0_number, !safe_divide_quotient.
  unfold Py.sub, Py.add, Py.arith. cbn [Py.bind].
  rewrite !safe_divide_quotient. reflexivity.
Qed.


Lemma policy_names : Py.keys HIGHER_IS_BETTER = ratio_names.
Proof. reflexivity. Qed.

(** ** Dictionaries *)

Section DictFacts.
Context {V : Type}.

Lemma lookup_In (d : dict V) (k : string) (v : V) :
  Py.lookup d k = Some v -> In (k, v) d.
Proof.
  induction d as [|[k' v'] d IH]; simpl; [discriminate|].
  destruct (String.eqb_spec k' k) as [->|_].
  - intros [= ->]. now left.
  - intros H. right. now apply IH.
Qed.


Lemma lookup_keys (d : dict V) (k : string) :
  In k (Py.keys d) <-> Py.lookup d k <> None.
Proof.
  induction d as [|[k' v'] d IH]; simpl.
  - tauto.
  - destruct (String.eqb_spec k' k) as [->|Hne].
    + split; [discriminate | now left].
    + rewrite <- IH. split; [intros [?|?]; tauto | tauto].
Qed.


Lemma lookup_set (d : dict V) (k k' : string) (v : V) :
  Py.lookup (Py.set d k v) k'
  = if String.eqb k k' then Some v else Py.lookup d k'.
Proof.
  induction d as [|[k0 v0] d IH]; simpl.
  - reflexivity.
  - destruct (String.eqb_spec k0 k) as [->|Hne]; simpl.
    + now destruct (String.eqb k k').
    + destruct (String.eqb_spec k0 k') as [->|Hne'].
      * destruct (String.eqb_spec k k'); congruence.
      * exact IH.
Qed.

Lemma keys_set (d : dict V) (k : string) (v : V) :
  Py.keys (Py.set d k v)
  = if in_dec string_dec k (Py.keys d) then Py.keys d
    else (Py.keys d ++ [k])%list.
Proof.
  induction d as [|[k0 v0] d IH]; simpl; [reflexivity|].
  destruct (String.eqb_spec k0 k) as [->|Hne]; simpl.
  - destruct (string_dec k k); [reflexivity | congruence].
  - rewrite IH. destruct (string_dec k0 k); [congruence|].
    now destruct (in_dec string_dec k (Py.keys d)).
Qed.

End DictFacts.





(** C9, as stated, fails: for absent facts the result has no entry at all,
    so no identifier is mapped to undefined in it. *)
Lemma calculate_ratios_no_data_not_all_undefined :
  ~ (exists ratios,
        calculate_ratios None = Ok ratios
        /\ forall name, In name ratio_names ->
                        Py.lookup ratios name = Some None).
Proof.
  intros (ratios & Hr & Hall).
  injection Hr as <-.
  specialize (Hall "current_ratio" (or_introl eq_refl)). discriminate.
Defined.

(** C9, amended. For absent or empty facts [calculate_ratios] returns, without
    raising, the empty ratio set: it has no entries, and reading any
    identifier from it gives undefined. *)
Theorem calculate_ratios_no_data (data : option (dict value)) :
  data = None \/ data = Some [] ->
  exists ratios,
    calculate_ratios data = Ok ratios
    /\ Py.keys ratios = []
    /\ forall name, Py.get ratios name = None.
Proof.
  intros [-> | ->]; exists []; repeat split.
Qed.

Lemma calculate_ratios_no_data_witness :
  exists ratios,
    calculate_ratios None = Ok ratios
    /\ Py.keys ratios = []
    /\ forall name, Py.get ratios name = None.
Proof.
  apply (calculate_ratios_no_data None). left. reflexivity.
Defined.




(** ** The benchmark aggregator *)

Lemma get_Some_lookup (d : dict value) (k : string) (v : Qc) :
  Py.get d k = Some v -> Py.lookup d k = Some (Some v).
Proof.
  unfold Py.get. destruct (Py.lookup d k) as [[x|]|]; congruence.
Qed.

Lemma valid_values_of_closed (name : string) (peers : list (dict value)) :
  valid_values_of name peers = Ok (map Some (defined_values name peers)).
Proof.
  induction peers as [|ratios rest IH]; simpl; [reflexivity|].
  destruct (Py.get ratios name) as [v|] eqn:E; simpl.
  - unfold Py.getitem. rewrite (get_Some_lookup _ _ _ E). simpl.
    rewrite IH. reflexivity.
  - exact IH.
Qed.

Lemma sum_from (vs : list Qc) (start : Qc) :
  Py.for_in (map Some vs) Py.add (Some start)
  = Ok (Some (fold_left Qcplus vs start)).
Proof.
  revert start. induction vs as [|v vs IH]; intros start; simpl; [reflexivity|].
  apply IH.
Qed.

Lemma sum_closed (vs : list Qc) : Py.sum (map Some vs) = Ok (Some (total vs)).
Proof. apply sum_from. Qed.

Lemma count_nonzero (n : nat) : Py.Qc_eqb (Py.int (Z.of_nat (S n))) 0 = false.
Proof.
  apply Qc_eqb_false. apply not_eq_sym, Qclt_not_eq, int_pos. lia.
Qed.

Lemma average_closed (vs : list Qc) :
  match map Some vs with
  | [] => Ok None
  | _ :: _ => s <- Py.sum (map Some vs) ;; Py.div s (Py.len (map Some vs))
  end = Ok (mean vs).
Proof.
  destruct vs as [|v vs]; [reflexivity|].
  change (s <- Py.sum (map Some (v :: vs)) ;;
          Py.div s (Py.len (map Some (v :: vs))) = Ok (mean (v :: vs))).
  rewrite sum_closed. cbn [Py.bind].
  unfold Py.len, Py.div. rewrite length_map.
  change (List.length (v :: vs)) with (S (List.length vs)).
  rewrite count_nonzero. reflexivity.
Qed.

Lemma benchmark_loop (peers : list (dict value)) (names : list string)
  (start : dict value) :
  Py.for_in names
    (fun benchmark_ratios name =>
       valid_values <- valid_values_of name peers ;;
       average <- match valid_values with
                  | [] => Ok None
                  | _ :: _ => s <- Py.sum valid_values ;;
                              Py.div s (Py.len valid_values)
                  end ;;
       Ok (Py.set benchmark_ratios name average))
    start
  = Ok (fold_left (fun benchmark_ratios name =>
                     Py.set benchmark_ratios name
                            (mean (defined_values name peers)))
                  names start).
Proof.
  revert start. induction names as [|name names IH]; intros start;
    [reflexivity|].
  cbn [Py.for_in fold_left]. rewrite valid_values_of_closed. cbn [Py.bind].
  rewrite average_closed. cbn [Py.bind]. apply IH.
Qed.

(** [calculate_benchmark_averages] in closed form. *)
Lemma calculate_benchmark_averages_closed (peers : list (dict value)) :
  calculate_benchmark_averages peers
  = Ok match peers with
       | [] => []
       | first :: _ => benchmark_of (Py.keys first) peers
       end.
Proof.
  destruct peers as [|first rest]; [reflexivity|].
  unfold calculate_benchmark_averages. apply benchmark_loop.
Qed.

Lemma lookup_fold_set (f : string -> value) (names : list string)
  (start : dict value) (k : string) :
  Py.lookup (fold_left (fun b n => Py.set b n (f n)) names start) k
  = if in_dec string_dec k names then Some (f k) else Py.lookup start k.
Proof.
  revert start. induction names as [|n names IH]; intros start; simpl;
    [reflexivity|].
  rewrite IH, lookup_set.
  destruct (in_dec string_dec k names) as [Hin|Hnin].
  - destruct (string_dec n k); reflexivity.
  - destruct (string_dec n k) as [->|Hne].
    + now rewrite String.eqb_refl.
    + destruct (String.eqb_spec n k); [contradiction | reflexivity].
Qed.

Lemma get_benchmark_of (names : list string) (peers : list (dict value))
  (k : string) :
  Py.get (benchmark_of names peers) k
  = if in_dec string_dec k names then mean (defined_values k peers) else None.
Proof.
  unfold Py.get, benchmark_of.
  rewrite (lookup_fold_set (fun n => mean (defined_values n peers))).
  now destruct (in_dec string_dec k names).
Qed.

Lemma total_from (vs : list Qc) (start : Qc) :
  fold_left Qcplus vs start = start + total vs.
Proof.
  unfold total. revert start.
  induction vs as [|v vs IH]; intros start; simpl.
  - now rewrite Qcplus_0_r.
  - rewrite IH, (IH (0 + v)), Qcplus_0_l. symmetry. apply Qcplus_assoc.
Qed.

Lemma total_cons (v : Qc) (vs : list Qc) : total (v :: vs) = v + total vs.
Proof.
  unfold total at 1. simpl. now rewrite total_from, Qcplus_0_l.
Qed.

Lemma mean_single (v : Qc) : mean [v] = Some v.
Proof.
  unfold mean. rewrite total_cons. f_equal.
  change (total []) with 0.
  replace (Py.int (Z.of_nat (List.length [v]))) with 1
    by (apply Qc_is_canon; reflexivity).
  field. apply Q_apart_0_1.
Qed.

Lemma defined_values_app (name : string) (l1 l2 : list (dict value)) :
  defined_values name (l1 ++ l2)
  = (defined_values name l1 ++ defined_values name l2)%list.
Proof. apply flat_map_app. Qed.

Lemma defined_values_skip (name : string) (l1 l2 : list (dict value))
  (ratios : dict value) :
  Py.get ratios name = None ->
  defined_values name (l1 ++ ratios :: l2) = defined_values name (l1 ++ l2).
Proof.
  intros H. rewrite !defined_values_app. f_equal.
  unfold defined_values at 1. simpl. now rewrite H.
Qed.

(** C8, as stated, fails: the benchmark of no peers has no entry at all. *)
Lemma benchmark_of_no_peers_not_all_undefined :
  ~ (exists benchmark,
        calculate_benchmark_averages [] = Ok benchmark
        /\ forall name, In name ratio_names ->
                        Py.lookup benchmark name = Some None).
Proof.
  intros (benchmark & Hb & Hall).
  injection Hb as <-.
  specialize (Hall "current_ratio" (or_introl eq_refl)). discriminate.
Defined.

(** C8, amended. [calculate_benchmark_averages] applied to the empty sequence
    returns the empty ratio set: no identifier has an entry in it, and
    reading any identifier from it gives undefined. *)
Theorem benchmark_of_no_peers :
  exists benchmark,
    calculate_benchmark_averages [] = Ok benchmark
    /\ Py.keys benchmark = []
    /\ forall name, Py.get benchmark name = None.
Proof. exists []. repeat split. Qed.

(** C2, as stated, fails: when the first peer is the empty ratio set that
    [calculate_ratios] returns for absent facts, the benchmark has no
    entries, although exactly one peer defines current_ratio (as 2). *)
Lemma benchmark_misses_single_defined_value :
  exists r0 r1,
    calculate_ratios None = Ok r0
    /\ calculate_ratios facts_a = Ok r1
    /\ defined_values "current_ratio" [r0; r1] = [Py.int 2]
    /\ exists benchmark,
         calculate_benchmark_averages [r0; r1] = Ok benchmark
         /\ Py.get benchmark "current_ratio" = None.
Proof.
  do 2 eexists. split; [reflexivity|]. split; [reflexivity|]. split.
  - simpl. f_equal. apply Qc_is_canon. reflexivity.
  - eexists. split; reflexivity.
Defined.

(** C2, amended. For peers [first :: rest] and every identifier that [first]
    carries, the benchmark value is the mean of the values the peers define:
    a peer whose value is undefined adds nothing to the sum and nothing to
    the count, and a single defined value [v] gives the benchmark [v]. *)
Theorem benchmark_mean_of_defined (first : dict value)
  (rest : list (dict value)) (name : string) :
  In name (Py.keys first) ->
  exists benchmark,
    calculate_benchmark_averages (first :: rest) = Ok benchmark
    /\ Py.get benchmark name
       = match defined_values name (first :: rest) with
         | [] => None
         | vs => Some (total vs / Py.int (Z.of_nat (List.length vs)))
         end
    /\ (forall l1 ratios l2,
           first :: rest = (l1 ++ ratios :: l2)%list ->
           Py.get ratios name = None ->
           defined_values name (first :: rest) = defined_values name (l1 ++ l2))
    /\ (forall v, defined_values name (first :: rest) = [v] ->
                  Py.get benchmark name = Some v).
Proof.
  intros Hin. rewrite calculate_benchmark_averages_closed. eexists.
  split; [reflexivity|].
  assert (Hget : Py.get (benchmark_of (Py.keys first) (first :: rest)) name
                 = mean (defined_values name (first :: rest))).
  { rewrite get_benchmark_of.
    destruct (in_dec string_dec name (Py.keys first)); [reflexivity|tauto]. }
  rewrite Hget. repeat split.
  - unfold mean. now destruct (defined_values name (first :: rest)).
  - intros l1 ratios l2 -> Hnone. now apply defined_values_skip.
  - intros v ->. apply mean_single.
Qed.

Lemma benchmark_mean_of_defined_witness :
  let first := [("current_ratio", Some (Py.int 2))] in
  let rest := [[("current_ratio", None)]] in
  exists benchmark,
    calculate_benchmark_averages (first :: rest) = Ok benchmark
    /\ Py.get benchmark "current_ratio"
       = match defined_values "current_ratio" (first :: rest) with
         | [] => None
         | vs => Some (total vs / Py.int (Z.of_nat (List.length vs)))
         end
    /\ (forall l1 ratios l2,
           first :: rest = (l1 ++ ratios :: l2)%list ->
           Py.get ratios "current_ratio" = None ->
           defined_values "current_ratio" (first :: rest)
           = defined_values "current_ratio" (l1 ++ l2))
    /\ (forall v, defined_values "current_ratio" (first :: rest) = [v] ->
                  Py.get benchmark "current_ratio" = Some v).
Proof.
  intros first rest.
  apply (benchmark_mean_of_defined first rest "current_ratio").
  simpl. left. reflexivity.
Defined.













(** ** The comparison loop *)

Lemma analysis_step_closed (direction_policy : dict (option bool))
  (benchmarks : dict value) (analysis_list : list (dict text))
  (item : string * value) :
  analysis_step direction_policy benchmarks analysis_list item
  = Ok (Py.append analysis_list (row_for direction_policy benchmarks item)).
Proof.
  destruct item as [name [t|]]; [|reflexivity].
  unfold analysis_step, row_for. cbn [fst snd Py.is_None format_fixed2 Py.bind].
  destruct (Py.get benchmarks name) as [b|]; [|reflexivity].
  cbn [Py.is_None format_fixed2 Py.bind Py.eq0 negb].
  destruct (Py.Qc_eqb b 0) eqn:Eb; cbn [negb Py.bind].
  - destruct (Py.get direction_policy name) as [[|]|]; cbn;
      try destruct (Py.Qc_ltb b t); cbn;
      try destruct (Py.Qc_ltb t b); reflexivity.
  - assert (Ea : Py.Qc_eqb (Qcabs b) 0 = false).
    { apply Qc_eqb_false. intros H. apply Qcabs_null in H.
      apply Qc_eqb_false in Eb. contradiction. }
    unfold Py.sub, Py.abs, Py.div, Py.mul, Py.arith. cbn [Py.bind].
    rewrite Ea. cbn [Py.bind].
    destruct (Py.get direction_policy name) as [[|]|]; cbn;
      try destruct (Py.Qc_ltb b t); cbn;
      try destruct (Py.Qc_ltb t b); reflexivity.
Qed.

Lemma analysis_loop_from (direction_policy : dict (option bool))
  (benchmarks : dict value) (items : list (string * value))
  (analysis_list : list (dict text)) :
  Py.for_in items (analysis_step direction_policy benchmarks) analysis_list
  = Ok (analysis_list ++ map (row_for direction_policy benchmarks) items)%list.
Proof.
  revert analysis_list.
  induction items as [|item items IH]; intros analysis_list; simpl.
  - now rewrite app_nil_r.
  - rewrite analysis_step_closed. cbn [Py.bind]. rewrite IH.
    unfold Py.append. now rewrite <- app_assoc.
Qed.

(** The loop in closed form: one row per item of the target, in order. *)
Lemma analysis_loop_closed (direction_policy : dict (option bool))
  (company_ratios benchmarks : dict value) :
  analysis_loop direction_policy company_ratios benchmarks
  = Ok (map (row_for direction_policy benchmarks) company_ratios).
Proof. unfold analysis_loop, Py.items. apply analysis_loop_from. Qed.


Lemma analysis_loop_row (direction_policy : dict (option bool))
  (company_ratios benchmarks : dict value) (i : nat) (item : string * value) :
  nth_error (Py.items company_ratios) i = Some item ->
  exists rows,
    analysis_loop direction_policy company_ratios benchmarks = Ok rows
    /\ nth_error rows i = Some (row_for direction_policy benchmarks item).
Proof.
  intros H. rewrite analysis_loop_closed. eexists. split; [reflexivity|].
  unfold Py.items in H. now rewrite nth_error_map, H.
Qed.

(** C3. The row built for the item [(ratio_name, company_value)] carries the
    verdict DataMissing, with the benchmark cell blank and no deviation, when
    the target value is undefined; otherwise NoBenchmark when the benchmark
    value is undefined; otherwise Good exactly when target > benchmark and
    Poor otherwise under HigherIsBetter, Good exactly when target < benchmark
    and Poor otherwise under LowerIsBetter (so equality gives Poor under
    both), and Neutral when the policy gives no direction. *)
Theorem verdict_rule (direction_policy : dict (option bool))
  (company_ratios benchmarks : dict value)
  (i : nat) (ratio_name : string) (company_value : value) :
  nth_error (Py.items company_ratios) i = Some (ratio_name, company_value) ->
  exists rows row,
    analysis_loop direction_policy company_ratios benchmarks = Ok rows
    /\ nth_error rows i = Some row
    /\ (company_value = None ->
        verdict_of row = Some DataMissing
        /\ Py.lookup row "benchmark_value" = Some (Lit "-")
        /\ deviation_of row = None)
    /\ (forall t, company_value = Some t ->
                  Py.get benchmarks ratio_name = None ->
                  verdict_of row = Some NoBenchmark
                  /\ deviation_of row = None)
    /\ (forall t b,
           company_value = Some t ->
           Py.get benchmarks ratio_name = Some b ->
           match direction_of direction_policy ratio_name with
           | HigherIsBetter =>
               (verdict_of row = Some Good <-> b < t)
               /\ (verdict_of row = Some Poor <-> ~ b < t)
               /\ (t = b -> verdict_of row = Some Poor)
           | LowerIsBetter =>
               (verdict_of row = Some Good <-> t < b)
               /\ (verdict_of row = Some Poor <-> ~ t < b)
               /\ (t = b -> verdict_of row = Some Poor)
           | NoDirection => verdict_of row = Some Neutral
           end).
Proof.
  intros Hitem.
  destruct (analysis_loop_row direction_policy _ benchmarks _ _ Hitem)
    as (rows & Hrows & Hrow).
  exists rows, (row_for direction_policy benchmarks (ratio_name, company_value)).
  split; [exact Hrows|]. split; [exact Hrow|].
  unfold row_for, direction_of. cbn [fst snd]. repeat split.
  - now subst.
  - now subst.
  - now subst.
  - subst. now rewrite H0.
  - subst. now rewrite H0.
  - intros t b -> ->.
    assert (Hirr : forall x : Qc, ~ x < x).
    { intros x Hx. exact (Qclt_not_eq _ _ Hx eq_refl). }
    destruct (Py.get direction_policy ratio_name) as [[|]|].
    + destruct (Py.Qc_ltb b t) eqn:E; unfold verdict_of; cbn.
      * apply Qc_ltb_lt in E. repeat split; try tauto; try discriminate.
        intros ->. now apply Hirr in E.
      * assert (~ b < t) by (rewrite <- Qc_ltb_lt; congruence).
        repeat split; try tauto; try discriminate.
    + destruct (Py.Qc_ltb t b) eqn:E; unfold verdict_of; cbn.
      * apply Qc_ltb_lt in E. repeat split; try tauto; try discriminate.
        intros ->. now apply Hirr in E.
      * assert (~ t < b) by (rewrite <- Qc_ltb_lt; congruence).
        repeat split; try tauto; try discriminate.
    + reflexivity.
Qed.

Lemma verdict_rule_witness :
  let company_ratios := [("current_ratio", Some (Py.int 2)); ("roe", None)] in
  let benchmarks := [("current_ratio", Some (Py.int 1)); ("roe", None)] in
  exists rows row,
    analysis_loop HIGHER_IS_BETTER company_ratios benchmarks = Ok rows
    /\ nth_error rows 0 = Some row
    /\ verdict_of row = Some Good.
Proof.
  intros company_ratios benchmarks.
  destruct (verdict_rule HIGHER_IS_BETTER company_ratios benchmarks
              0 "current_ratio" (Some (Py.int 2)) eq_refl)
    as (rows & row & Hrows & Hrow & _ & _ & Hverdict).
  exists rows, row. split; [exact Hrows|]. split; [exact Hrow|].
  destruct (Hverdict (Py.int 2) (Py.int 1) eq_refl eq_refl) as (Hgood & _).
  apply Hgood. reflexivity.
Defined.

(** C4. For an item whose target value [t] and benchmark value [b] are both
    defined, the deviation the row reports is [(t - b) / abs(b) * 100] when
    [b] is not zero, and [0] when [b] is zero. *)
Theorem deviation_rule (direction_policy : dict (option bool))
  (company_ratios benchmarks : dict value)
  (i : nat) (ratio_name : string) (t b : Qc) :
  nth_error (Py.items company_ratios) i = Some (ratio_name, Some t) ->
  Py.get benchmarks ratio_name = Some b ->
  exists rows row,
    analysis_loop direction_policy company_ratios benchmarks = Ok rows
    /\ nth_error rows i = Some row
    /\ (b <> 0 ->
        deviation_of row = Some ((t - b) / Qcabs b * Py.int 100))
    /\ (b = 0 -> deviation_of row = Some 0).
Proof.
  intros Hitem Hb.
  destruct (analysis_loop_row direction_policy _ benchmarks _ _ Hitem)
    as (rows & Hrows & Hrow).
  exists rows, (row_for direction_policy benchmarks (ratio_name, Some t)).
  split; [exact Hrows|]. split; [exact Hrow|].
  unfold row_for. cbn [fst snd]. rewrite Hb.
  assert (Hdev : forall label colour diff,
             deviation_of
               [("ratio_name", display_name ratio_name);
                ("company_value", Fixed2 t); ("benchmark_value", Fixed2 b);
                ("analysis", Signed1 label diff); ("color_class", Lit colour)]
             = Some diff) by reflexivity.
  destruct (Py.get direction_policy ratio_name) as [[|]|];
    try destruct (Py.Qc_ltb _ _); rewrite Hdev;
    (split; intros H0;
     [ apply Qc_eqb_false in H0 | apply Qc_eqb_eq in H0 ];
     now rewrite H0).
Qed.

Lemma deviation_rule_witness :
  let company_ratios := [("current_ratio", Some (Py.int 2))] in
  let benchmarks := [("current_ratio", Some (Py.int 1))] in
  exists rows row,
    analysis_loop HIGHER_IS_BETTER company_ratios benchmarks = Ok rows
    /\ nth_error rows 0 = Some row
    /\ deviation_of row = Some (Py.int 100).
Proof.
  intros company_ratios benchmarks.
  destruct (deviation_rule HIGHER_IS_BETTER company_ratios benchmarks
              0 "current_ratio" (Py.int 2) (Py.int 1) eq_refl eq_refl)
    as (rows & row & Hrows & Hrow & Hdev & _).
  exists rows, row. split; [exact Hrows|]. split; [exact Hrow|].
  rewrite Hdev.
  - apply f_equal, Qc_is_canon. reflexivity.
  - apply Qc_eqb_false. reflexivity.
Defined.



(** ** Scenarios of the specification *)

(** Evaluate the left-hand side and compare the two numbers as fractions. *)
Ltac number_eq :=
  lazymatch goal with
  | |- ?lhs = Some ?y =>
      let v := eval vm_compute in lhs in
      change (v = Some y); apply f_equal, Qc_is_canon; reflexivity
  end.

Example scenario_current_ratio :
  exists ratios,
    calculate_ratios facts_a = Ok ratios
    /\ Py.get ratios "current_ratio" = Some (Py.int 2).
Proof. eexists. split; [reflexivity | number_eq]. Qed.

Example scenario_quick_ratio_without_current_assets :
  exists ratios,
    calculate_ratios facts_b = Ok ratios
    /\ Py.get ratios "quick_ratio" = Some (Q2Qc (-1 # 2)).
Proof. eexists. split; [reflexivity | number_eq]. Qed.

Example scenario_missing_denominator :
  exists ratios rows row,
    calculate_ratios (Some [("current_assets", Some (Py.int 200))]) = Ok ratios
    /\ Py.get ratios "current_ratio" = None
    /\ index_analysis_list ratios [] = Ok rows
    /\ nth_error rows 0 = Some row
    /\ verdict_of row = Some DataMissing.
Proof. do 3 eexists. repeat split. Qed.

Example scenario_lower_is_better :
  exists rows row,
    index_analysis_list [("debt_to_equity", Some (Q2Qc (3 # 2)))]
                        [("debt_to_equity", Some (Py.int 1))] = Ok rows
    /\ nth_error rows 0 = Some row
    /\ verdict_of row = Some Poor.
Proof. do 2 eexists. repeat split. Qed.

Example scenario_neutral :
  exists rows row,
    index_analysis_list [("pe_ratio", Some (Py.int 20))]
                        [("pe_ratio", Some (Py.int 20))] = Ok rows
    /\ nth_error rows 0 = Some row
    /\ verdict_of row = Some Neutral
    /\ deviation_of row = Some 0.
Proof.
  do 2 eexists. split; [reflexivity|]. split; [reflexivity|].
  split; [reflexivity | number_eq].
Qed.

Example scenario_equal_is_poor :
  exists rows row,
    index_analysis_list [("roe", Some (Py.int 1))]
                        [("roe", Some (Py.int 1))] = Ok rows
    /\ nth_error rows 0 = Some row
    /\ verdict_of row = Some Poor.
Proof. do 2 eexists. repeat split. Qed.

Example scenario_one_defined_peer :
  exists benchmark,
    calculate_benchmark_averages
      [ [("debt_to_equity", Some (Q2Qc (1 # 2)))];
        [("debt_to_equity", None)] ] = Ok benchmark
    /\ Py.get benchmark "debt_to_equity" = Some (Q2Qc (1 # 2)).
Proof. eexists. split; [reflexivity | number_eq]. Qed.

(** ** More about the ratio calculator *)







(** ** More about the benchmark aggregator *)

Lemma set_fresh {V : Type} (d : dict V) (k : string) (v : V) :
  ~ In k (Py.keys d) -> Py.set d k v = (d ++ [(k, v)])%list.
Proof.
  induction d as [|[k0 v0] d IH]; simpl; intros H; [reflexivity|].
  destruct (String.eqb_spec k0 k) as [->|_]; [tauto|].
  rewrite IH; tauto.
Qed.

Lemma fold_set_fresh {V : Type} (f : string -> V) (names : list string)
  (start : dict V) :
  NoDup (Py.keys start ++ names) ->
  fold_left (fun b n => Py.set b n (f n)) names start
  = (start ++ map (fun n => (n, f n)) names)%list.
Proof.
  revert start. induction names as [|n names IH]; intros start Hnd; simpl.
  - now rewrite app_nil_r.
  - assert (Hn : ~ In n (Py.keys start)).
    { apply NoDup_remove_2 in Hnd. intros H. apply Hnd, in_or_app. now left. }
    rewrite set_fresh by exact Hn. rewrite IH.
    + now rewrite <- app_assoc.
    + unfold Py.keys in *. rewrite map_app, <- app_assoc. exact Hnd.
Qed.

Lemma benchmark_of_entries (names : list string) (peers : list (dict value)) :
  NoDup names ->
  benchmark_of names peers
  = map (fun n => (n, mean (defined_values n peers))) names.
Proof.
  intros H. unfold benchmark_of.
  now rewrite (fold_set_fresh (fun n => mean (defined_values n peers))).
Qed.

Lemma mean_undefined (vs : list Qc) : mean vs = None <-> vs = [].
Proof. destruct vs; simpl; split; congruence. Qed.

Lemma defined_values_nil (name : string) (peers : list (dict value)) :
  defined_values name peers = []
  <-> Forall (fun ratios => Py.get ratios name = None) peers.
Proof.
  induction peers as [|r peers IH].
  - split; constructor.
  - change (defined_values name (r :: peers))
      with ((match Py.get r name with Some v => [v] | None => [] end)
            ++ defined_values name peers)%list.
    split.
    + intros H. apply app_eq_nil in H as [Hr Hp].
      constructor; [|now apply IH]. now destruct (Py.get r name).
    + intros H. inversion H as [|? ? Hr Hp]; subst.
      rewrite Hr. now apply IH.
Qed.

(** X6. The benchmark of peers [first :: rest], [first] having no repeated
    key, carries exactly the identifiers of [first], in the same order; and
    one of them is undefined in the benchmark exactly when no peer defines
    it. *)
Theorem benchmark_identifiers (first : dict value) (rest : list (dict value)) :
  NoDup (Py.keys first) ->
  exists benchmark,
    calculate_benchmark_averages (first :: rest) = Ok benchmark
    /\ Py.keys benchmark = Py.keys first
    /\ forall name,
         In name (Py.keys first) ->
         (Py.get benchmark name = None <->
          Forall (fun ratios => Py.get ratios name = None) (first :: rest)).
Proof.
  intros Hnd. rewrite calculate_benchmark_averages_closed. eexists.
  split; [reflexivity|]. split.
  - rewrite benchmark_of_entries by exact Hnd.
    unfold Py.keys. rewrite map_map. simpl. apply map_id.
  - intros name Hin. rewrite get_benchmark_of.
    destruct (in_dec string_dec name (Py.keys first)); [|contradiction].
    now rewrite mean_undefined, defined_values_nil.
Qed.

Lemma benchmark_identifiers_witness :
  let first := [("current_ratio", Some (Py.int 2)); ("roe", None)] in
  let rest := [[("current_ratio", None); ("roe", None)]] in
  exists benchmark,
    calculate_benchmark_averages (first :: rest) = Ok benchmark
    /\ Py.keys benchmark = Py.keys first
    /\ forall name,
         In name (Py.keys first) ->
         (Py.get benchmark name = None <->
          Forall (fun ratios => Py.get ratios name = None) (first :: rest)).
Proof.
  intros first rest. apply (benchmark_identifiers first rest).
  repeat (constructor; [simpl; intuition discriminate|]). constructor.
Defined.

Lemma benchmark_of_ext (names : list string) (l l' : list (dict value)) :
  (forall name, defined_values name l = defined_values name l') ->
  benchmark_of names l = benchmark_of names l'.
Proof.
  intros H. unfold benchmark_of. generalize (@nil (string * value)).
  induction names as [|n names IH]; intros start; simpl; [reflexivity|].
  rewrite (H n). apply IH.
Qed.

(** X8. A peer that defines no ratio at all, such as the empty ratio set of
    a company without data, leaves the whole benchmark unchanged wherever it
    stands after the first peer. *)
Theorem benchmark_ignores_undefined_peer (first : dict value)
  (l1 l2 : list (dict value)) (r : dict value) :
  (forall name, Py.get r name = None) ->
  exists benchmark,
    calculate_benchmark_averages (first :: l1 ++ r :: l2) = Ok benchmark
    /\ calculate_benchmark_averages (first :: l1 ++ l2) = Ok benchmark.
Proof.
  intros Hr. rewrite !calculate_benchmark_averages_closed. eexists.
  split; [reflexivity|]. apply f_equal. apply benchmark_of_ext.
  intros name. symmetry.
  apply (defined_values_skip name (first :: l1) l2 r (Hr name)).
Qed.

Lemma benchmark_ignores_undefined_peer_witness :
  let first := [("current_ratio", Some (Py.int 2))] in
  let other := [("current_ratio", Some (Py.int 1))] in
  exists benchmark,
    calculate_benchmark_averages (first :: [other] ++ [] :: [other])
    = Ok benchmark
    /\ calculate_benchmark_averages (first :: [other] ++ [other])
       = Ok benchmark.
Proof.
  intros first other.
  apply (benchmark_ignores_undefined_peer first [other] [other] []).
  reflexivity.
Defined.

Lemma ratio_names_NoDup : NoDup ratio_names.
Proof.
  repeat (constructor; [simpl; intuition discriminate|]). constructor.
Qed.

Lemma benchmark_of_complete_peers (peers : list (dict value)) :
  peers <> [] ->
  Forall (fun ratios => Py.keys ratios = ratio_names) peers ->
  calculate_benchmark_averages peers = Ok (benchmark_of ratio_names peers).
Proof.
  intros Hne Hkeys. rewrite calculate_benchmark_averages_closed.
  destruct peers as [|first rest]; [congruence|].
  inversion Hkeys as [|? ? Hfirst _]; subst. now rewrite Hfirst.
Qed.

(** ** More about the comparison loop *)

(** X10. Every row of the analysis has the five fields the template reads,
    in the same order; its company cell is N/A exactly when the target value
    is undefined and the formatted target value otherwise; its benchmark
    cell is a dash when the target value is undefined, N/A when only the
    benchmark is undefined, and the formatted benchmark value otherwise. *)
Theorem row_layout (direction_policy : dict (option bool))
  (company_ratios benchmarks : dict value)
  (i : nat) (ratio_name : string) (company_value : value) :
  nth_error (Py.items company_ratios) i = Some (ratio_name, company_value) ->
  exists rows row,
    analysis_loop direction_policy company_ratios benchmarks = Ok rows
    /\ nth_error rows i = Some row
    /\ Py.keys row = [ "ratio_name"; "company_value"; "benchmark_value";
                       "analysis"; "color_class" ]
    /\ Py.lookup row "company_value"
       = Some match company_value with
              | Some t => Fixed2 t
              | None => Lit "N/A"
              end
    /\ Py.lookup row "benchmark_value"
       = Some match company_value, Py.get benchmarks ratio_name with
              | None, _ => Lit "-"
              | Some _, None => Lit "N/A"
              | Some _, Some b => Fixed2 b
              end.
Proof.
  intros Hitem.
  destruct (analysis_loop_row direction_policy _ benchmarks _ _ Hitem)
    as (rows & Hrows & Hrow).
  exists rows, (row_for direction_policy benchmarks (ratio_name, company_value)).
  split; [exact Hrows|]. split; [exact Hrow|].
  unfold row_for. cbn [fst snd].
  destruct company_value as [t|]; [|repeat split].
  destruct (Py.get benchmarks ratio_name) as [b|]; [|repeat split].
  destruct (Py.get direction_policy ratio_name) as [[|]|];
    try destruct (Py.Qc_ltb _ _); repeat split.
Qed.

Lemma row_layout_witness :
  let company_ratios := [("current_ratio", Some (Py.int 2)); ("roe", None)] in
  let benchmarks := [("current_ratio", None); ("roe", Some (Py.int 1))] in
  exists rows row,
    analysis_loop HIGHER_IS_BETTER company_ratios benchmarks = Ok rows
    /\ nth_error rows 0 = Some row
    /\ Py.keys row = [ "ratio_name"; "company_value"; "benchmark_value";
                       "analysis"; "color_class" ]
    /\ Py.lookup row "company_value" = Some (Fixed2 (Py.int 2))
    /\ Py.lookup row "benchmark_value" = Some (Lit "N/A").
Proof.
  intros company_ratios benchmarks.
  exact (row_layout HIGHER_IS_BETTER company_ratios benchmarks
           0 "current_ratio" (Some (Py.int 2)) eq_refl).
Defined.

Lemma row_for_colour (direction_policy : dict (option bool))
  (benchmarks : dict value) (item : string * value) :
  exists v,
    verdict_of (row_for direction_policy benchmarks item) = Some v
    /\ Py.lookup (row_for direction_policy benchmarks item) "color_class"
       = Some (Lit (colour_of v)).
Proof.
  unfold row_for. destruct item as [name [t|]]; cbn [fst snd].
  - destruct (Py.get benchmarks name) as [b|].
    + destruct (Py.get direction_policy name) as [[|]|];
        try destruct (Py.Qc_ltb _ _); eexists; split; reflexivity.
    + exists NoBenchmark. split; reflexivity.
  - exists DataMissing. split; reflexivity.
Qed.

(** X11. Every row has a verdict, and its colour class is the one of that
    verdict: green for GOOD, red for POOR, blue for Peers and gray for the
    two rows without a comparison. *)
Theorem colour_follows_verdict (direction_policy : dict (option bool))
  (company_ratios benchmarks : dict value) (i : nat) (item : string * value) :
  nth_error (Py.items company_ratios) i = Some item ->
  exists rows row v,
    analysis_loop direction_policy company_ratios benchmarks = Ok rows
    /\ nth_error rows i = Some row
    /\ verdict_of row = Some v
    /\ Py.lookup row "color_class" = Some (Lit (colour_of v)).
Proof.
  intros Hitem.
  destruct (analysis_loop_row direction_policy _ benchmarks _ _ Hitem)
    as (rows & Hrows & Hrow).
  destruct (row_for_colour direction_policy benchmarks item) as (v & Hv & Hc).
  exists rows, (row_for direction_policy benchmarks item), v. auto.
Qed.

Lemma colour_follows_verdict_witness :
  let company_ratios := [("current_ratio", Some (Py.int 2))] in
  let benchmarks := [("current_ratio", Some (Py.int 1))] in
  exists rows row v,
    analysis_loop HIGHER_IS_BETTER company_ratios benchmarks = Ok rows
    /\ nth_error rows 0 = Some row
    /\ verdict_of row = Some v
    /\ Py.lookup row "color_class" = Some (Lit (colour_of v)).
Proof.
  intros company_ratios benchmarks.
  exact (colour_follows_verdict HIGHER_IS_BETTER company_ratios benchmarks
           0 ("current_ratio", Some (Py.int 2)) eq_refl).
Defined.











Lemma row_for_direction (direction_policy : dict (option bool))
  (benchmarks : dict value) (item : string * value) (v : verdict) :
  verdict_of (row_for direction_policy benchmarks item) = Some v ->
  (Py.get direction_policy (fst item) = None -> v <> Good /\ v <> Poor)
  /\ (Py.get direction_policy (fst item) <> None -> v <> Neutral).
Proof.
  unfold row_for. destruct item as [name [t|]]; cbn [fst snd].
  - destruct (Py.get benchmarks name) as [b|].
    + destruct (Py.get direction_policy name) as [[|]|];
        try destruct (Py.Qc_ltb _ _); intros [= <-];
        split; intros H; try split; congruence.
    + intros [= <-]. split; intros H; try split; congruence.
  - intros [= <-]. split; intros H; try split; congruence.
Qed.

(** X13. With the program's own table, the rows of pe_ratio, ev_to_ebitda
    and price_to_book, and of any identifier the table does not list, are
    never GOOD or POOR; the rows of the ten other ratios are never Peers. *)
Theorem valuation_ratios_are_not_judged (company_ratios benchmarks : dict value)
  (i : nat) (ratio_name : string) (company_value : value) :
  nth_error (Py.items company_ratios) i = Some (ratio_name, company_value) ->
  exists rows row v,
    index_analysis_list company_ratios benchmarks = Ok rows
    /\ nth_error rows i = Some row
    /\ verdict_of row = Some v
    /\ (In ratio_name ["pe_ratio"; "ev_to_ebitda"; "price_to_book"]
        \/ ~ In ratio_name ratio_names ->
        v <> Good /\ v <> Poor)
    /\ (In ratio_name
           [ "current_ratio"; "quick_ratio"; "debt_to_equity";
             "debt_to_assets"; "interest_coverage"; "gross_profit_margin";
             "net_profit_margin"; "roe"; "roa"; "asset_turnover" ] ->
        v <> Neutral).
Proof.
  intros Hitem. unfold index_analysis_list.
  destruct (analysis_loop_row HIGHER_IS_BETTER _ benchmarks _ _ Hitem)
    as (rows & Hrows & Hrow).
  destruct (row_for_colour HIGHER_IS_BETTER benchmarks
              (ratio_name, company_value)) as (v & Hv & _).
  destruct (row_for_direction _ _ _ _ Hv) as (Hnone & Hsome).
  cbn [fst] in Hnone, Hsome.
  exists rows, (row_for HIGHER_IS_BETTER benchmarks (ratio_name, company_value)), v.
  split; [exact Hrows|]. split; [exact Hrow|]. split; [exact Hv|]. split.
  - intros [Hin | Hnin]; apply Hnone.
    + cbv [In] in Hin.
      repeat (destruct Hin as [<- | Hin]; [reflexivity|]). contradiction.
    + unfold Py.get.
      destruct (Py.lookup HIGHER_IS_BETTER ratio_name) eqn:E; [|reflexivity].
      exfalso. apply Hnin. rewrite <- policy_names.
      apply lookup_keys. congruence.
  - intros Hin. apply Hsome. cbv [In] in Hin.
    repeat (destruct Hin as [<- | Hin]; [discriminate|]). contradiction.
Qed.

Lemma valuation_ratios_are_not_judged_witness :
  let company_ratios := [("pe_ratio", Some (Py.int 30))] in
  let benchmarks := [("pe_ratio", Some (Py.int 20))] in
  exists rows row v,
    index_analysis_list company_ratios benchmarks = Ok rows
    /\ nth_error rows 0 = Some row
    /\ verdict_of row = Some v
    /\ v <> Good /\ v <> Poor.
Proof.
  intros company_ratios benchmarks.
  destruct (valuation_ratios_are_not_judged company_ratios benchmarks
              0 "pe_ratio" (Some (Py.int 30)) eq_refl)
    as (rows & row & v & Hrows & Hrow & Hv & Hvaluation & _).
  exists rows, row, v. repeat split; try assumption;
    apply Hvaluation; left; simpl; tauto.
Defined.

(** ** Fetching *)

Lemma average_closed_form (current previous : Frame.series) (label : string) :
  caught (s <- Py.add (Frame.get_or_0 current label)
                      (Frame.get_or_0 previous label) ;;
          Py.div s (Some (Py.int 2)))
  = Some (Some (average_of current previous label)).
Proof.
  unfold average_of, Frame.get_or_0, Frame.get.
  destruct (Py.lookup current label) as [x|],
           (Py.lookup previous label) as [y|]; reflexivity.
Qed.

Lemma financial_record_closed (info : dict value)
  (bs_curr bs_prev is_curr : Frame.series) :
  exists d,
    financial_record info bs_curr bs_prev is_curr = Some d
    /\ Py.keys d = line_item_keys
    /\ (forall key label,
           In (key, label)
              [ ("current_assets", "Current Assets");
                ("current_liabilities", "Current Liabilities");
                ("inventory", "Inventory"); ("total_debt", "Total Debt");
                ("total_equity", "Stockholders Equity");
                ("cash", "Cash And Cash Equivalents");
                ("total_assets", "Total Assets") ] ->
           Py.get d key = Frame.get bs_curr label)
    /\ (forall key label,
           In (key, label)
              [ ("total_revenue", "Total Revenue");
                ("gross_profit", "Gross Profit"); ("ebit", "EBIT");
                ("interest_expense", "Interest Expense");
                ("net_income", "Net Income") ] ->
           Py.get d key = Frame.get is_curr label)
    /\ (forall key label,
           In (key, label)
              [ ("ebitda", "ebitda"); ("eps", "trailingEps");
                ("market_cap", "marketCap");
                ("book_value_per_share", "bookValue") ] ->
           Py.get d key = Py.get info label)
    /\ Py.get d "avg_total_assets"
       = Some (average_of bs_curr bs_prev "Total Assets")
    /\ Py.get d "avg_total_equity"
       = Some (average_of bs_curr bs_prev "Stockholders Equity")
    /\ Py.get d "current_share_price"
       = or_else (Py.get info "currentPrice") (Py.get info "previousClose").
Proof.
  unfold financial_record. rewrite !average_closed_form. cbn [attempt].
  eexists. split; [reflexivity|]. split; [reflexivity|].
  repeat split.
  all: intros key label Hin; cbv [In] in Hin;
    repeat (destruct Hin as [[= <- <-] | Hin]; [reflexivity|]);
    contradiction.
Qed.

Lemma has_row_In (df : Frame.t) (label : string) :
  Frame.has_row df label = true <-> In label (Frame.index df).
Proof.
  unfold Frame.has_row. rewrite existsb_exists. split.
  - intros (x & Hx & E). apply String.eqb_eq in E. now subst.
  - intros H. exists label. split; [exact H | apply String.eqb_refl].
Qed.

(** The two outcomes of [get_financial_data]: line items exactly when the
    ticker is [complete], an error message otherwise. *)
Lemma get_financial_data_outcome (ticker_symbol : string) (ticker : provider) :
  (complete ticker
   /\ exists i bs inc c0 c1 i0 d,
        info ticker = Got i /\ balance_sheet ticker = Got bs
        /\ income_stmt ticker = Got inc
        /\ nth_error (Frame.columns bs) 0 = Some c0
        /\ nth_error (Frame.columns bs) 1 = Some c1
        /\ nth_error (Frame.columns inc) 0 = Some i0
        /\ financial_record i c0 c1 i0 = Some d
        /\ get_financial_data ticker_symbol ticker = [(ticker_symbol, Data d)])
  \/ (~ complete ticker
      /\ exists m,
           m <> ""
           /\ get_financial_data ticker_symbol ticker
              = failure_item ticker_symbol m).
Proof.
  unfold get_financial_data.
  destruct ticker as [fi fbs finc]. cbn [info balance_sheet income_stmt].
  destruct fi as [i|]; cbn [access attempt].
  2:{ right. split.
      - intros (i' & bs' & inc' & Hi & _). discriminate Hi.
      - eexists. split; [|reflexivity]. discriminate. }
  destruct i as [|e i]; cbn [is_empty orb].
  { right. split.
    - intros (i' & bs' & inc' & Hi & _ & _ & Hne & _).
      injection Hi as <-. congruence.
    - eexists. split; [|reflexivity]. discriminate. }
  destruct (Py.get (e :: i) "trailingEps") as [eps|] eqn:Eeps;
    cbn [Py.is_None].
  2:{ right. split.
      - intros (i' & bs' & inc' & Hi & _ & _ & _ & Heps & _).
        injection Hi as <-. cbn [info] in Heps. congruence.
      - eexists. split; [|reflexivity]. discriminate. }
  destruct fbs as [bs|]; cbn [access attempt].
  2:{ right. split.
      - intros (i' & bs' & inc' & _ & Hbs & _). discriminate Hbs.
      - eexists. split; [|reflexivity]. discriminate. }
  destruct finc as [inc|]; cbn [access attempt].
  2:{ right. split.
      - intros (i' & bs' & inc' & _ & _ & Hinc & _). discriminate Hinc.
      - eexists. split; [|reflexivity]. discriminate. }
  destruct (Frame.empty bs) eqn:Ebs; cbn [orb].
  { right. split.
    - intros (i' & bs' & inc' & _ & Hbs & _ & _ & _ & Hidx & _ & _ & _ & Hlen).
      injection Hbs as <-. unfold Frame.empty in Ebs.
      destruct (Frame.index bs); [congruence|].
      destruct (Frame.columns bs); [simpl in Hlen; lia | discriminate].
    - eexists. split; [|reflexivity]. discriminate. }
  destruct (Frame.empty inc) eqn:Einc; cbn [orb].
  { right. split.
    - intros (i' & bs' & inc' & _ & _ & Hinc & _ & _ & _ & Hidx & Hcols & _).
      injection Hinc as <-. unfold Frame.empty in Einc.
      destruct (Frame.index inc); [congruence|].
      destruct (Frame.columns inc); [congruence | discriminate].
    - eexists. split; [|reflexivity]. discriminate. }
  destruct (Frame.has_row bs "Stockholders Equity") eqn:Erow; cbn [negb].
  2:{ right. split.
      - intros (i' & bs' & inc' & _ & Hbs & _ & _ & _ & _ & _ & _ & Hrow & _).
        injection Hbs as <-. apply has_row_In in Hrow. congruence.
      - eexists. split; [|reflexivity]. discriminate. }
  destruct (List.length (Frame.columns bs) <? 2)%nat eqn:Elen.
  { right. split.
    - intros (i' & bs' & inc' & _ & Hbs & _ & _ & _ & _ & _ & _ & _ & Hlen).
      injection Hbs as <-. apply Nat.ltb_lt in Elen. lia.
    - eexists. split; [|reflexivity]. discriminate. }
  apply Nat.ltb_ge in Elen. unfold Frame.iloc_column.
  destruct (Frame.columns bs) as [|c0 [|c1 cols]] eqn:Ecols;
    try (simpl in Elen; lia).
  unfold Frame.empty in Ebs, Einc.
  destruct (Frame.index bs) as [|l ls] eqn:Eidx; [discriminate|].
  destruct (Frame.index inc) as [|l' ls'] eqn:Eidx'; [discriminate|].
  destruct (Frame.columns inc) as [|i0 cols'] eqn:Ecols'; [discriminate|].
  cbn [nth_error attempt].
  destruct (financial_record_closed (e :: i) c0 c1 i0) as (d & Hd & _).
  rewrite Hd. cbn [attempt]. left. split.
  - exists (e :: i), bs, inc. cbn [info balance_sheet income_stmt].
    rewrite Eidx, Eidx', Ecols', Ecols. repeat split; try congruence.
    rewrite <- Eidx. now apply has_row_In.
  - exists (e :: i), bs, inc, c0, c1, i0, d.
    rewrite Ecols, Ecols'. repeat split. exact Hd.
Qed.

Lemma failure_item_entries (ticker_symbol m : string) :
  failure_item ticker_symbol m
  = if ticker_symbol =? "error" then [("error", Message m)]
    else [(ticker_symbol, NoData); ("error", Message m)].
Proof.
  unfold failure_item. cbn [Py.set].
  destruct (String.eqb_spec ticker_symbol "error") as [->|_]; reflexivity.
Qed.

Lemma sample_ticker_complete : complete sample_ticker.
Proof.
  exists [ ("trailingEps", Some (Py.int 2));
           ("previousClose", Some (Py.int 30)) ],
    sample_balance_sheet, sample_income_stmt.
  repeat split; try discriminate.
  - simpl. tauto.
  - simpl. lia.
Qed.

Lemma financial_record_keys (i : dict value) (c0 c1 i0 : Frame.series)
  (d : dict value) :
  financial_record i c0 c1 i0 = Some d -> Py.keys d = line_item_keys.
Proof.
  destruct (financial_record_closed i c0 c1 i0) as (d' & Hd' & Hk & _).
  rewrite Hd'. now intros [= <-].
Qed.

Lemma company_data_complete (ticker_symbol : string) (ticker : provider)
  (d : dict value) :
  company_data ticker_symbol ticker = Some d ->
  complete ticker
  /\ exists i bs inc c0 c1 i0,
       info ticker = Got i /\ balance_sheet ticker = Got bs
       /\ income_stmt ticker = Got inc
       /\ nth_error (Frame.columns bs) 0 = Some c0
       /\ nth_error (Frame.columns bs) 1 = Some c1
       /\ nth_error (Frame.columns inc) 0 = Some i0
       /\ financial_record i c0 c1 i0 = Some d
       /\ get_financial_data ticker_symbol ticker = [(ticker_symbol, Data d)].
Proof.
  unfold company_data.
  destruct (get_financial_data_outcome ticker_symbol ticker)
    as [(Hc & i & bs & inc & c0 & c1 & i0 & d' & Hi & Hbs & Hinc & H0 & H1
         & H2 & Hd & Hitem) | (_ & m & _ & Hitem)];
    rewrite Hitem.
  - simpl. rewrite String.eqb_refl. intros [= <-]. split; [exact Hc|].
    exists i, bs, inc, c0, c1, i0. repeat split; assumption.
  - rewrite failure_item_entries.
    destruct (String.eqb_spec ticker_symbol "error") as [->|Hne]; simpl.
    + discriminate.
    + rewrite String.eqb_refl. discriminate.
Qed.

(** X14. [get_financial_data] puts line items on the queue exactly when the
    ticker is complete, and then all nineteen of them under the ticker
    symbol and nothing else; otherwise it puts [None] under the ticker
    symbol and a non-empty message under 'error' (the message alone when
    the ticker symbol is itself 'error'). *)
Theorem fetch_outcome (ticker_symbol : string) (ticker : provider) :
  (complete ticker ->
   exists d,
     get_financial_data ticker_symbol ticker = [(ticker_symbol, Data d)]
     /\ Py.keys d = line_item_keys)
  /\ (~ complete ticker ->
      exists m,
        m <> ""
        /\ get_financial_data ticker_symbol ticker
           = if ticker_symbol =? "error" then [("error", Message m)]
             else [(ticker_symbol, NoData); ("error", Message m)])
  /\ ((exists d, company_data ticker_symbol ticker = Some d)
      <-> complete ticker).
Proof.
  destruct (get_financial_data_outcome ticker_symbol ticker)
    as [(Hc & i & bs & inc & c0 & c1 & i0 & d & _ & _ & _ & _ & _ & _
         & Hd & Hitem) | (Hnc & m & Hm & Hitem)].
  - split; [|split].
    + intros _. exists d. split; [exact Hitem|].
      now apply (financial_record_keys i c0 c1 i0).
    + tauto.
    + split; [intros _; exact Hc|]. intros _. exists d.
      unfold company_data. rewrite Hitem. simpl.
      now rewrite String.eqb_refl.
  - split; [tauto|]. split.
    + intros _. exists m. split; [exact Hm|].
      now rewrite Hitem, failure_item_entries.
    + split; [|tauto]. intros (d & Hd).
      now apply company_data_complete in Hd.
Qed.

Lemma fetch_outcome_witness :
  (exists d,
      get_financial_data "TCS.NS" sample_ticker = [("TCS.NS", Data d)]
      /\ Py.keys d = line_item_keys)
  /\ (exists m,
         m <> ""
         /\ get_financial_data "TCS.NS" broken_ticker
            = [("TCS.NS", NoData); ("error", Message m)]).
Proof.
  split.
  - apply (proj1 (fetch_outcome "TCS.NS" sample_ticker)).
    exact sample_ticker_complete.
  - apply (proj1 (proj2 (fetch_outcome "TCS.NS" broken_ticker))).
    intros (i & bs & inc & _ & Hbs & _). discriminate Hbs.
Defined.

Lemma complete_ratio_set (d : dict value) :
  Py.keys d = line_item_keys ->
  calculate_ratios (Some d) = Ok (map (ratio_of (Some d)) ratio_operands).
Proof.
  intros Hk. rewrite calculate_ratios_closed.
  destruct d as [|e d]; [discriminate | reflexivity].
Qed.










(** ** The request handler *)

Lemma lookup_app {V : Type} (d e : dict V) (k : string) :
  Py.lookup (d ++ e)%list k
  = match Py.lookup d k with
    | Some v => Some v
    | None => Py.lookup e k
    end.
Proof.
  induction d as [|[k' v'] d IH]; simpl; [reflexivity|].
  destruct (String.eqb k' k); [reflexivity | exact IH].
Qed.

Lemma lookup_update {V : Type} (d e : dict V) (k : string) :
  Py.lookup (Py.update d e) k
  = match Py.lookup (rev e) k with
    | Some v => Some v
    | None => Py.lookup d k
    end.
Proof.
  unfold Py.update. revert d.
  induction e as [|[k' v'] e IH]; intros d; simpl; [reflexivity|].
  rewrite IH, lookup_app, lookup_set. simpl.
  destruct (Py.lookup (rev e) k); [reflexivity|].
  now destruct (String.eqb k' k).
Qed.

Lemma lookup_all_data {V : Type} (items : list (dict V)) (k : string) (v : V) :
  (forall item, In item items ->
                Py.lookup (rev item) k = None
                \/ Py.lookup (rev item) k = Some v) ->
  forall start,
    Py.lookup start k = Some v
    \/ (exists item, In item items /\ Py.lookup (rev item) k = Some v) ->
    Py.lookup (fold_left Py.update items start) k = Some v.
Proof.
  induction items as [|it rest IH]; intros Hall start Hsome.
  - destruct Hsome as [H | (item & [] & _)]. exact H.
  - cbn [fold_left]. apply IH.
    + intros item Hin. apply Hall. now right.
    + rewrite lookup_update.
      destruct (Hall it (or_introl eq_refl)) as [Hit | Hit]; rewrite Hit.
      * destruct Hsome as [H | (item & [<- | Hin] & Hitem)].
        -- now left.
        -- congruence.
        -- right. now exists item.
      * now left.
Qed.

Lemma drain_closed (drained : list (dict entry))
  (all_data : dict entry) (errors : list entry) :
  Py.for_in drained drain_step (all_data, errors)
  = Ok (fold_left Py.update drained all_data,
        (errors ++ flat_map errors_of drained)%list).
Proof.
  revert all_data errors.
  induction drained as [|item rest IH]; intros all_data errors.
  - cbn [Py.for_in fold_left flat_map]. now rewrite app_nil_r.
  - cbn [Py.for_in fold_left flat_map]. unfold drain_step at 1.
    unfold errors_of at 1, entry_get, Py.getitem.
    destruct (Py.lookup item "error") as [e|]; cbn [truthy].
    + destruct (truthy e); cbn [Py.bind]; rewrite IH.
      * unfold Py.append. now rewrite <- app_assoc.
      * reflexivity.
    + cbn [Py.bind]. rewrite IH. reflexivity.
Qed.

Lemma item_lookup (s k : string) (p : provider) :
  s <> "error" -> k <> "error" ->
  Py.lookup (rev (get_financial_data s p)) k
  = if s =? k then Some (entry_for s p) else None.
Proof.
  intros Hs Hk. unfold entry_for, company_data.
  destruct (get_financial_data_outcome s p)
    as [(_ & i & bs & inc & c0 & c1 & i0 & d & _ & _ & _ & _ & _ & _ & _
         & Hitem) | (_ & m & _ & Hitem)];
    rewrite Hitem.
  - cbn [rev app Py.lookup]. rewrite String.eqb_refl. reflexivity.
  - rewrite failure_item_entries.
    destruct (String.eqb_spec s "error") as [|_]; [contradiction|].
    cbn [rev app Py.lookup]. rewrite String.eqb_refl.
    destruct (String.eqb_spec "error" k) as [E|_]; [congruence|].
    reflexivity.
Qed.

Lemma item_errors (s : string) (p : provider) :
  s <> "error" ->
  match company_data s p with
  | Some _ => errors_of (get_financial_data s p) = []
  | None => exists m, m <> ""
                      /\ errors_of (get_financial_data s p) = [Message m]
  end.
Proof.
  intros Hs. unfold company_data, errors_of, entry_get.
  destruct (get_financial_data_outcome s p)
    as [(_ & i & bs & inc & c0 & c1 & i0 & d & _ & _ & _ & _ & _ & _ & _
         & Hitem) | (_ & m & Hm & Hitem)];
    rewrite Hitem.
  - cbn [Py.lookup]. rewrite String.eqb_refl.
    destruct (String.eqb_spec s "error"); [contradiction | reflexivity].
  - rewrite failure_item_entries.
    destruct (String.eqb_spec s "error") as [|_]; [contradiction|].
    cbn [Py.lookup]. rewrite String.eqb_refl.
    destruct (String.eqb_spec s "error"); [contradiction|].
    rewrite String.eqb_refl. cbn [truthy].
    exists m. split; [exact Hm|].
    destruct (String.eqb_spec m ""); [contradiction | reflexivity].
Qed.

Lemma combine_functional {A B : Type} (l : list A) (l' : list B)
  (a : A) (b b' : B) :
  NoDup l -> In (a, b) (combine l l') -> In (a, b') (combine l l') -> b = b'.
Proof.
  revert l'. induction l as [|x l IH]; intros [|y l'] Hnd H H';
    try contradiction.
  inversion Hnd as [|? ? Hx Hl]; subst. simpl in H, H'.
  destruct H as [H | H], H' as [H' | H'].
  - congruence.
  - injection H as -> ->. apply in_combine_l in H'. contradiction.
  - injection H' as -> ->. apply in_combine_l in H. contradiction.
  - exact (IH l' Hl H H').
Qed.

Lemma all_data_lookup (all_tickers : list string) (tickers : list provider)
  (drained : list (dict entry)) (s : string) (p : provider) :
  NoDup all_tickers -> ~ In "error" all_tickers ->
  Permutation drained (thread_items all_tickers tickers) ->
  In (s, p) (combine all_tickers tickers) ->
  Py.lookup (fold_left Py.update drained []) s = Some (entry_for s p).
Proof.
  intros Hnd Herr Hperm Hin.
  assert (Hs : s <> "error").
  { intros ->. apply Herr. now apply in_combine_l in Hin. }
  apply lookup_all_data.
  - intros item Hitem.
    apply (Permutation_in _ Hperm) in Hitem.
    apply in_map_iff in Hitem as ([s' p'] & <- & Hin'). cbn [fst snd].
    assert (Hs' : s' <> "error").
    { intros ->. apply Herr. now apply in_combine_l in Hin'. }
    rewrite (item_lookup s' s p' Hs' Hs).
    destruct (String.eqb_spec s' s) as [->|_]; [|now left].
    right. now rewrite (combine_functional _ _ _ _ _ Hnd Hin Hin').
  - right. exists (get_financial_data s p). split.
    + apply (Permutation_in _ (Permutation_sym Hperm)).
      apply in_map_iff. now exists (s, p).
    + rewrite (item_lookup s s p Hs Hs). now rewrite String.eqb_refl.
Qed.

Lemma company_data_keys (s : string) (p : provider) (d : dict value) :
  company_data s p = Some d -> Py.keys d = line_item_keys.
Proof.
  intros H.
  destruct (company_data_complete _ _ _ H)
    as (_ & i & bs & inc & c0 & c1 & i0 & _ & _ & _ & _ & _ & _ & Hd & _).
  now apply (financial_record_keys i c0 c1 i0).
Qed.

Lemma company_data_ratios (s : string) (p : provider) (d : dict value) :
  company_data s p = Some d ->
  d <> [] /\ calculate_ratios (Some d) = Ok (computed_ratios d).
Proof.
  intros H. apply company_data_keys in H. split.
  - intros ->. discriminate.
  - now apply complete_ratio_set.
Qed.

Lemma competitor_ratios_closed (all_data : dict entry)
  (cps : list (string * provider)) :
  (forall c p, In (c, p) cps ->
               Py.lookup all_data c = Some (entry_for c p)) ->
  competitor_ratios all_data (map fst cps)
  = inr (map computed_ratios (fetched_data cps)).
Proof.
  induction cps as [|[c p] cps IH]; intros Hall; [reflexivity|].
  cbn [map fst competitor_ratios]. unfold entry_get, Py.getitem.
  rewrite (Hall c p (or_introl eq_refl)).
  rewrite IH by (intros c' p' Hin; apply Hall; now right).
  unfold fetched_data. cbn [flat_map fst snd]. unfold entry_for.
  destruct (company_data c p) as [d|] eqn:E; cbn [truthy].
  - destruct (company_data_ratios _ _ _ E) as (Hne & Hr).
    destruct d as [|e d]; [congruence|]. cbn [is_empty negb run and_then].
    cbn [calculate_ratios_of]. rewrite Hr. reflexivity.
  - reflexivity.
Qed.

Lemma computed_ratios_keys (d : dict value) :
  Py.keys (computed_ratios d) = ratio_names.
Proof. reflexivity. Qed.

Lemma map_fst_combine {A B : Type} (l : list A) (l' : list B) :
  List.length l' = List.length l -> map fst (combine l l') = l.
Proof.
  revert l'. induction l as [|x l IH]; intros [|y l'] H;
    try discriminate; [reflexivity|].
  simpl. f_equal. apply IH. now injection H.
Qed.

(** [index] in closed form for a run. *)
Lemma index_closed (symbol : string) (competitor_tickers : list string)
  (main : provider) (others : list provider) (drained : list (dict entry)) :
  run_of symbol competitor_tickers main others drained ->
  index (POST (Some symbol) competitor_tickers) drained
  = inr (rendered symbol competitor_tickers
           match company_data symbol main with
           | None => Error (MainTickerFailed symbol
                              (flat_map errors_of drained))
           | Some d =>
               match fetched_data (combine competitor_tickers others) with
               | [] => Error (NoCompetitorData (flat_map errors_of drained))
               | ds =>
                   Analysis symbol competitor_tickers
                     (map (row_for HIGHER_IS_BETTER
                             (benchmark_of ratio_names
                                (map computed_ratios ds)))
                          (computed_ratios d))
               end
           end).
Proof.
  intros (Hsym & Hcomp & Hnd & Herr & Hlen & Hperm).
  unfold index.
  destruct (String.eqb_spec symbol "") as [|_]; [contradiction|].
  destruct competitor_tickers as [|c0 cs] eqn:Ecs; [congruence|].
  rewrite <- Ecs in *. cbn [orb]. rewrite Ecs at 1. cbn [is_empty].
  rewrite drain_closed. cbn [run and_then app].
  assert (Hlookup : forall s p,
             In (s, p) (combine (symbol :: competitor_tickers) (main :: others)) ->
             Py.lookup (fold_left Py.update drained []) s
             = Some (entry_for s p)).
  { intros s p. now apply all_data_lookup. }
  rewrite (Hlookup symbol main) by now left.
  unfold entry_for.
  destruct (company_data symbol main) as [d|] eqn:Emain; [|reflexivity].
  destruct (company_data_ratios _ _ _ Emain) as (Hne & Hr).
  cbn [calculate_ratios_of]. rewrite Hr. cbn [run and_then].
  rewrite <- (map_fst_combine competitor_tickers others Hlen) at 1.
  rewrite competitor_ratios_closed
    by (intros c p Hin; apply Hlookup; now right).
  cbn [and_then].
  destruct (fetched_data (combine competitor_tickers others)) as [|d0 ds];
    [reflexivity|].
  cbn [map is_empty].
  rewrite benchmark_of_complete_peers;
    [|discriminate
     |constructor; [reflexivity|];
      apply Forall_forall; intros r Hin;
      apply in_map_iff in Hin as (x & <- & _); reflexivity].
  cbn [run and_then]. unfold index_analysis_list.
  rewrite analysis_loop_closed. reflexivity.
Qed.





Lemma errors_of_tickers (tps : list (string * provider)) :
  (forall s p, In (s, p) tps -> s <> "error") ->
  let errors :=
    flat_map errors_of
             (map (fun tp => get_financial_data (fst tp) (snd tp)) tps) in
  List.length errors = List.length (failed tps) /\ Forall is_message errors.
Proof.
  intros Hs. cbn zeta.
  induction tps as [|[s p] tps IH]; [split; [reflexivity | constructor]|].
  destruct IH as (IHlen & IHall); [intros s' p' Hin; apply (Hs s' p'); now right|].
  cbn [map flat_map fst snd failed filter].
  pose proof (item_errors s p (Hs s p (or_introl eq_refl))) as Hitem.
  destruct (company_data s p) as [d|].
  - rewrite Hitem. cbn [app]. split; assumption.
  - destruct Hitem as (m & Hm & ->). cbn [app List.length]. split.
    + f_equal. exact IHlen.
    + constructor; [now exists m | exact IHall].
Qed.

Lemma run_errors (symbol : string) (competitor_tickers : list string)
  (main : provider) (others : list provider) (drained : list (dict entry)) :
  run_of symbol competitor_tickers main others drained ->
  let errors := flat_map errors_of drained in
  List.length errors
  = List.length (failed (combine (symbol :: competitor_tickers)
                                 (main :: others)))
  /\ Forall is_message errors.
Proof.
  intros (_ & _ & _ & Herr & _ & Hperm). cbn zeta.
  pose proof (Permutation_flat_map errors_of Hperm) as Hp.
  destruct (errors_of_tickers
              (combine (symbol :: competitor_tickers) (main :: others)))
    as (Hlen & Hall).
  { intros s p Hin ->. apply Herr. now apply in_combine_l in Hin. }
  split.
  - rewrite (Permutation_length Hp). exact Hlen.
  - apply Forall_forall. intros e He.
    apply (Permutation_in _ Hp) in He.
    rewrite Forall_forall in Hall. now apply Hall.
Qed.

(** X20. When the main ticker gave no line items, [index] renders the
    main-ticker error whatever the competitors gave, with one non-empty
    message for each ticker of the request that gave none. *)
Theorem index_main_ticker_failed (symbol : string)
  (competitor_tickers : list string) (main : provider)
  (others : list provider) (drained : list (dict entry)) :
  run_of symbol competitor_tickers main others drained ->
  company_data symbol main = None ->
  exists errors,
    index (POST (Some symbol) competitor_tickers) drained
    = inr (rendered symbol competitor_tickers
             (Error (MainTickerFailed symbol errors)))
    /\ List.length errors
       = S (List.length (failed (combine competitor_tickers others)))
    /\ Forall is_message errors.
Proof.
  intros Hrun Hmain. rewrite (index_closed _ _ _ _ _ Hrun), Hmain.
  destruct (run_errors _ _ _ _ _ Hrun) as (Hlen & Hall).
  eexists. split; [reflexivity|]. split; [|exact Hall].
  rewrite Hlen. cbn [combine failed filter fst snd]. now rewrite Hmain.
Qed.

Lemma broken_run :
  run_of "TCS.NS" ["INFY.NS"] broken_ticker [sample_ticker]
         (thread_items ["TCS.NS"; "INFY.NS"] [broken_ticker; sample_ticker]).
Proof.
  repeat split.
  - discriminate.
  - discriminate.
  - repeat (constructor; [simpl; intuition discriminate|]). constructor.
  - simpl. intuition discriminate.
  - apply Permutation_refl.
Qed.

Lemma index_main_ticker_failed_witness :
  exists errors,
    index (POST (Some "TCS.NS") ["INFY.NS"])
          (thread_items ["TCS.NS"; "INFY.NS"] [broken_ticker; sample_ticker])
    = inr (rendered "TCS.NS" ["INFY.NS"]
             (Error (MainTickerFailed "TCS.NS" errors)))
    /\ List.length errors = 1%nat.
Proof.
  destruct (index_main_ticker_failed "TCS.NS" ["INFY.NS"] broken_ticker
              [sample_ticker] _ broken_run eq_refl)
    as (errors & Hindex & Hlen & _).
  exists errors. split; [exact Hindex | exact Hlen].
Defined.










(** ** Binary floating point: the ratio calculator *)

Lemma b64_or0_defined (v : B64.value) : exists n, B64.or0 v = Some n.
Proof.
  unfold B64.or0. destruct v as [n|]; [|simpl; eauto].
  destruct (B64.is_None (Some n) || B64.eq0 (Some n)); eauto.
Qed.


Lemma b64_outcome_bind {A B : Type} (c : B64.result A) (k : A -> B64.result B)
  (Q : A -> Prop) (P : B -> Prop) (E : B64.exn -> Prop) :
  B64.outcome c Q E ->
  (forall a, c = B64.Ok a -> Q a -> B64.outcome (k a) P E) ->
  B64.outcome (B64.bind c k) P E.
Proof.
  destruct c as [a|e]; simpl; intros Hc Hk; [now apply Hk | exact Hc].
Qed.

Lemma b64_outcome_weaken {A : Type} (c : B64.result A) (P : A -> Prop)
  (E E' : B64.exn -> Prop) :
  B64.outcome c P E -> (forall e, E e -> E' e) -> B64.outcome c P E'.
Proof. destruct c; simpl; auto. Qed.

Lemma b64_or0_float_or_0 (v : B64.value) :
  B64.float_or_0 v = true -> B64.float_or_0 (B64.or0 v) = true.
Proof.
  unfold B64.or0. now destruct (B64.is_None v || B64.eq0 v).
Qed.

(** [a + b] and [a - b] of two numbers: a number, an int only if both are;
    or [OverflowError], from an int other than [0]. *)
Lemma b64_arith_outcome (int_op : Z -> Z -> Z)
  (float_op : B64.float -> B64.float -> B64.float) (a b : B64.value) :
  a <> None -> b <> None -> int_op 0%Z 0%Z = 0%Z ->
  B64.outcome (B64.arith int_op float_op a b)
    (fun r => r <> None
              /\ (B64.float_or_0 a = true -> B64.float_or_0 b = true ->
                  B64.float_or_0 r = true))
    (fun e => e = B64.OverflowError
              /\ ~ (B64.float_or_0 a = true /\ B64.float_or_0 b = true)).
Proof.
  intros Ha Hb H0.
  destruct a as [m|]; [|congruence]. destruct b as [n|]; [|congruence].
  destruct m as [x|x], n as [y|y]; cbn [B64.arith B64.to_float B64.bind].
  - simpl. split; [discriminate|]. intros Hx Hy.
    apply Z.eqb_eq in Hx, Hy. subst. rewrite H0. reflexivity.
  - destruct (B64.is_infinite (B64.nearest x 0)) eqn:F; simpl.
    + split; [reflexivity|]. intros [Hx _]. apply Z.eqb_eq in Hx. now subst.
    + split; [discriminate | reflexivity].
  - destruct (B64.is_infinite (B64.nearest y 0)) eqn:F; simpl.
    + split; [reflexivity|]. intros [_ Hy]. apply Z.eqb_eq in Hy. now subst.
    + split; [discriminate | reflexivity].
  - simpl. split; [discriminate | reflexivity].
Qed.

Lemma b64_or0_not_None (v : B64.value) : B64.or0 v <> None.
Proof. destruct (b64_or0_defined v) as [n ->]. discriminate. Qed.

Lemma b64_sub_outcome (a b : B64.value) :
  a <> None -> b <> None ->
  B64.outcome (B64.sub a b)
    (fun r => r <> None
              /\ (B64.float_or_0 a = true -> B64.float_or_0 b = true ->
                  B64.float_or_0 r = true))
    (fun e => e = B64.OverflowError
              /\ ~ (B64.float_or_0 a = true /\ B64.float_or_0 b = true)).
Proof. intros Ha Hb. now apply b64_arith_outcome. Qed.

Lemma b64_add_outcome (a b : B64.value) :
  a <> None -> b <> None ->
  B64.outcome (B64.add a b)
    (fun r => r <> None
              /\ (B64.float_or_0 a = true -> B64.float_or_0 b = true ->
                  B64.float_or_0 r = true))
    (fun e => e = B64.OverflowError
              /\ ~ (B64.float_or_0 a = true /\ B64.float_or_0 b = true)).
Proof. intros Ha Hb. now apply b64_arith_outcome. Qed.

(** [safe_divide] returns, or raises [OverflowError] from an int other
    than [0]: the guard keeps every zero divisor away from the division. *)
Lemma b64_safe_divide_outcome (num den : B64.value) :
  B64.outcome (B64.safe_divide num den) (fun _ => True)
    (fun e => e = B64.OverflowError
              /\ ~ (B64.float_or_0 num = true /\ B64.float_or_0 den = true)).
Proof.
  unfold B64.safe_divide.
  destruct (B64.is_None den || B64.eq0 den || B64.is_None num) eqn:G;
    [exact I|].
  apply orb_false_elim in G as [G Gn]. apply orb_false_elim in G as [Gd G0].
  destruct num as [m|]; [|discriminate]. destruct den as [n|]; [|discriminate].
  unfold B64.div. rewrite G0.
  destruct m as [x|x], n as [y|y]; cbn [B64.to_float B64.bind].
  - simpl in G0. rewrite G0.
    destruct (B64.is_infinite (B64.fdiv (B64.unrounded x) (B64.unrounded y)));
      simpl; [|exact I].
    split; [reflexivity|]. intros [_ Hy]. congruence.
  - destruct (B64.is_infinite (B64.nearest x 0)) eqn:F; simpl; [|exact I].
    split; [reflexivity|]. intros [Hx _]. apply Z.eqb_eq in Hx. now subst.
  - destruct (B64.is_infinite (B64.nearest y 0)) eqn:F; simpl; [|exact I].
    split; [reflexivity|]. intros [_ Hy]. simpl in G0. congruence.
  - exact I.
Qed.

Lemma b64_floats_only_item (d : dict B64.value) (key : string) :
  B64.floats_only (Some d) = true -> B64.float_or_0 (Py.get d key) = true.
Proof.
  unfold B64.floats_only, Py.get.
  induction d as [|[k v] d IH]; simpl; [reflexivity|].
  intros H. apply andb_prop in H as [Hv Hd].
  destruct (String.eqb k key); [|now apply IH].
  now destruct v as [[z|x]|].
Qed.

(** One step of a run of [calculate_ratios]: the computation at the head
    either raises [OverflowError], which facts without ints exclude, or
    returns. *)
Ltac b64_step lemma r E Q :=
  eapply b64_outcome_bind;
  [ eapply b64_outcome_weaken; [ apply lemma | ]
  | intros r E Q ].

(** A run of [calculate_ratios] on facts that have entries. *)
Lemma b64_calculate_ratios_run (dd : dict B64.value) :
  dd <> [] ->
  let data := Some dd in
  B64.outcome (B64.calculate_ratios data)
    (fun ratios =>
       Py.keys ratios = ratio_names
       /\ forall name num den,
            In (name, (num, den)) ratio_operands ->
            exists n,
              B64.numerator data num = B64.Ok n
              /\ (n = None -> exists key, num = Item key)
              /\ B64.safe_divide n (B64.line_item data den)
                 = B64.Ok (Py.get ratios name))
    (fun e => e = B64.OverflowError /\ B64.floats_only data = false).
Proof.
  intros Hdd data. unfold data. clear data.
  assert (Hbody : exists e d, dd = e :: d)
    by (destruct dd as [|e d]; [congruence | eauto]).
  destruct Hbody as (e0 & d0 & Hbody).
  unfold B64.calculate_ratios. rewrite Hbody at 1. cbv iota. clear Hbody e0 d0.
  assert (Hitem : forall key, B64.floats_only (Some dd) = true ->
                              B64.float_or_0 (Py.get dd key) = true).
  { intros key. apply b64_floats_only_item. }
  assert (Hraise : forall (a b : B64.value) (x : B64.exn),
             (B64.floats_only (Some dd) = true -> B64.float_or_0 a = true) ->
             (B64.floats_only (Some dd) = true -> B64.float_or_0 b = true) ->
             x = B64.OverflowError
             /\ ~ (B64.float_or_0 a = true /\ B64.float_or_0 b = true) ->
             x = B64.OverflowError /\ B64.floats_only (Some dd) = false).
  { intros a b x Ha Hb [-> Hn]. split; [reflexivity|].
    destruct (B64.floats_only (Some dd)); [|reflexivity].
    exfalso. apply Hn. split; [apply Ha | apply Hb]; reflexivity. }
  b64_step b64_safe_divide_outcome r1 E1 Q1;
    [intros x; apply Hraise; apply Hitem|].
  b64_step b64_sub_outcome qa Eqa Qqa;
    [apply b64_or0_not_None | apply b64_or0_not_None
    | intros x; apply Hraise; intros F; apply b64_or0_float_or_0, Hitem, F|].
  destruct Qqa as [Hqa Fqa].
  b64_step b64_safe_divide_outcome r2 E2 Q2;
    [intros x; apply Hraise; [|apply Hitem]; intros F;
     apply Fqa; apply b64_or0_float_or_0, Hitem, F|].
  b64_step b64_safe_divide_outcome r3 E3 Q3;
    [intros x; apply Hraise; apply Hitem|].
  b64_step b64_safe_divide_outcome r4 E4 Q4;
    [intros x; apply Hraise; apply Hitem|].
  b64_step b64_safe_divide_outcome r5 E5 Q5;
    [intros x; apply Hraise; apply Hitem|].
  b64_step b64_safe_divide_outcome r6 E6 Q6;
    [intros x; apply Hraise; apply Hitem|].
  b64_step b64_safe_divide_outcome r7 E7 Q7;
    [intros x; apply Hraise; apply Hitem|].
  b64_step b64_safe_divide_outcome r8 E8 Q8;
    [intros x; apply Hraise; apply Hitem|].
  b64_step b64_safe_divide_outcome r9 E9 Q9;
    [intros x; apply Hraise; apply Hitem|].
  b64_step b64_safe_divide_outcome r10 E10 Q10;
    [intros x; apply Hraise; apply Hitem|].
  b64_step b64_safe_divide_outcome r11 E11 Q11;
    [intros x; apply Hraise; apply Hitem|].
  b64_step b64_add_outcome ev Eev Qev;
    [apply b64_or0_not_None | apply b64_or0_not_None
    | intros x; apply Hraise; intros F; apply b64_or0_float_or_0, Hitem, F|].
  destruct Qev as [Hev Fev].
  b64_step b64_sub_outcome en Een Qen;
    [exact Hev | apply b64_or0_not_None
    | intros x; apply Hraise; intros F;
      [apply Fev | ]; apply b64_or0_float_or_0, Hitem, F|].
  destruct Qen as [Hen Fen].
  b64_step b64_safe_divide_outcome r12 E12 Q12;
    [intros x; apply Hraise; [|apply Hitem]; intros F; apply Fen;
     [apply Fev|]; apply b64_or0_float_or_0, Hitem, F|].
  b64_step b64_safe_divide_outcome r13 E13 Q13;
    [intros x; apply Hraise; apply Hitem|].
  split; [reflexivity|].
  intros name num den Hin. cbv [ratio_operands In] in Hin.
  repeat (destruct Hin as [Hin|Hin];
          [injection Hin as <- <- <-; eexists;
           (split; [first [reflexivity | eassumption
                          | cbn [B64.numerator B64.line_item];
                            rewrite Eev; eassumption]|]);
           (split; [first [intros; eexists; reflexivity
                          | intros; contradiction]|]);
           eassumption|]).
  contradiction.
Qed.

Lemma b64_calculate_ratios_no_data (data : option (dict B64.value)) :
  data = None \/ data = Some [] -> B64.calculate_ratios data = B64.Ok [].
Proof. intros [-> | ->]; reflexivity. Qed.




(** X1. A ratio set is all or nothing.  [calculate_ratios] returns the empty
    dict for absent or empty facts and otherwise a dict whose keys are the
    thirteen identifiers in canonical order, never a part of them; or it
    raises [OverflowError], which takes an int among the line items. *)
Theorem ratio_set_whole_or_empty (data : option (dict B64.value)) :
  (exists ratios,
      B64.calculate_ratios data = B64.Ok ratios
      /\ Py.keys ratios = match data with
                          | None | Some [] => []
                          | Some (_ :: _) => ratio_names
                          end)
  \/ (B64.calculate_ratios data = B64.Raise B64.OverflowError
      /\ B64.floats_only data = false).
Proof.
  assert (Hcases : data = None \/ data = Some []
                   \/ exists dd, data = Some dd /\ dd <> []).
  { destruct data as [[|e d]|]; auto.
    right; right. eexists. split; [reflexivity | discriminate]. }
  destruct Hcases as [-> | [-> | (dd & -> & Hdd)]];
    try (left; eexists; split; reflexivity).
  pose proof (b64_calculate_ratios_run dd Hdd) as Hrun. cbv zeta in Hrun.
  destruct (B64.calculate_ratios (Some dd)) as [ratios|x];
    cbn [B64.outcome] in Hrun.
  - left. exists ratios. split; [reflexivity|].
    destruct dd; [congruence | apply Hrun].
  - right. destruct Hrun as [-> Hfloats]. split; [reflexivity | exact Hfloats].
Qed.

(** ** Binary floating point: the benchmark aggregator *)

Lemma b64_valid_values_of_closed (name : string)
  (peers : list (dict B64.ratio)) :
  B64.valid_values_of name peers
  = B64.Ok (map Some (B64.defined_values name peers)).
Proof.
  induction peers as [|ratios rest IH]; [reflexivity|].
  cbn [B64.valid_values_of].
  unfold B64.defined_values in *. cbn [flat_map].
  unfold Py.get at 1 2, B64.getitem.
  destruct (Py.lookup ratios name) as [[v|]|]; simpl.
  - rewrite IH. reflexivity.
  - exact IH.
  - exact IH.
Qed.

Lemma b64_sum_from (vs : list B64.float) (start : B64.float) :
  B64.for_in (map Some vs)
    (fun s v => match v with
                | Some x => B64.Ok (B64.fadd s x)
                | None => B64.Raise B64.TypeError
                end) start
  = B64.Ok (fold_left B64.fadd vs start).
Proof.
  revert start. induction vs as [|v vs IH]; intros start; simpl; [reflexivity|].
  apply IH.
Qed.

Lemma b64_average_closed (vs : list B64.float) :
  match map Some vs with
  | [] => B64.Ok None
  | _ :: _ => B64.bind (B64.sum (map Some vs))
                (fun s => B64.bind (B64.div_len s (map Some vs))
                            (fun q => B64.Ok (Some q)))
  end = B64.Ok (B64.mean vs).
Proof.
  destruct vs as [|v vs]; [reflexivity|].
  change (B64.bind (B64.sum (map Some (v :: vs)))
            (fun s => B64.bind (B64.div_len s (map Some (v :: vs)))
                        (fun q => B64.Ok (Some q)))
          = B64.Ok (B64.mean (v :: vs))).
  unfold B64.sum. rewrite b64_sum_from. cbn [B64.bind].
  unfold B64.mean, B64.total, B64.div_len.
  cbn [map B64.bind List.length]. rewrite length_map. reflexivity.
Qed.

Lemma b64_benchmark_loop (peers : list (dict B64.ratio)) (names : list string)
  (start : dict B64.ratio) :
  B64.for_in names
    (fun benchmark_ratios name =>
       B64.bind (B64.valid_values_of name peers)
         (fun valid_values =>
            B64.bind match valid_values with
                     | [] => B64.Ok None
                     | _ :: _ =>
                         B64.bind (B64.sum valid_values)
                           (fun s => B64.bind (B64.div_len s valid_values)
                                       (fun q => B64.Ok (Some q)))
                     end
              (fun average => B64.Ok (Py.set benchmark_ratios name average))))
    start
  = B64.Ok (fold_left (fun benchmark_ratios name =>
                         Py.set benchmark_ratios name
                                (B64.mean (B64.defined_values name peers)))
                      names start).
Proof.
  revert start. induction names as [|name names IH]; intros start;
    [reflexivity|].
  cbn [B64.for_in fold_left]. rewrite b64_valid_values_of_closed.
  cbn [B64.bind]. rewrite b64_average_closed. cbn [B64.bind]. apply IH.
Qed.

(** [calculate_benchmark_averages] in closed form: it raises nothing. *)
Lemma b64_calculate_benchmark_averages_closed (peers : list (dict B64.ratio)) :
  B64.calculate_benchmark_averages peers
  = B64.Ok match peers with
           | [] => []
           | first :: _ => B64.benchmark_of (Py.keys first) peers
           end.
Proof.
  destruct peers as [|first rest]; [reflexivity|].
  unfold B64.calculate_benchmark_averages. apply b64_benchmark_loop.
Qed.

Lemma b64_lookup_fold_set {V : Type} (f : string -> V) (names : list string)
  (start : dict V) (k : string) :
  Py.lookup (fold_left (fun b n => Py.set b n (f n)) names start) k
  = if in_dec string_dec k names then Some (f k) else Py.lookup start k.
Proof.
  revert start. induction names as [|n names IH]; intros start; simpl;
    [reflexivity|].
  rewrite IH, lookup_set.
  destruct (in_dec string_dec k names) as [Hin|Hnin].
  - destruct (string_dec n k); reflexivity.
  - destruct (string_dec n k) as [->|Hne].
    + now rewrite String.eqb_refl.
    + destruct (String.eqb_spec n k); [contradiction | reflexivity].
Qed.

Lemma b64_get_benchmark_of (names : list string)
  (peers : list (dict B64.ratio)) (k : string) :
  Py.get (B64.benchmark_of names peers) k
  = if in_dec string_dec k names
    then B64.mean (B64.defined_values k peers) else None.
Proof.
  unfold Py.get, B64.benchmark_of.
  rewrite (b64_lookup_fold_set
             (fun n => B64.mean (B64.defined_values n peers))).
  now destruct (in_dec string_dec k names).
Qed.

(** The keys of a benchmark come from the names alone. *)
Lemma b64_benchmark_of_keys (names : list string)
  (peers peers' : list (dict B64.ratio)) :
  Py.keys (B64.benchmark_of names peers)
  = Py.keys (B64.benchmark_of names peers').
Proof.
  unfold B64.benchmark_of.
  assert (H : forall start start' : dict B64.ratio,
             Py.keys start = Py.keys start' ->
             Py.keys (fold_left
                        (fun b n => Py.set b n
                                      (B64.mean (B64.defined_values n peers)))
                        names start)
             = Py.keys (fold_left
                          (fun b n => Py.set b n
                                        (B64.mean (B64.defined_values n peers')))
                          names start')).
  { induction names as [|n names IH]; intros start start' Hk; simpl;
      [exact Hk|].
    apply IH. rewrite !keys_set, Hk. reflexivity. }
  now apply H.
Qed.

Lemma b64_defined_values_Permutation (name : string)
  (l l' : list (dict B64.ratio)) :
  Permutation l l' ->
  Permutation (B64.defined_values name l) (B64.defined_values name l').
Proof.
  unfold B64.defined_values.
  induction 1 as [|x l l' _ IH|x y l|l l' l'' _ IH1 _ IH2]; simpl.
  - constructor.
  - now apply Permutation_app_head.
  - rewrite !app_assoc. apply Permutation_app_tail, Permutation_app_comm.
  - now transitivity
      (flat_map (fun ratios => match Py.get ratios name with
                               | Some v => [v]
                               | None => []
                               end) l').
Qed.

Lemma b64_mean_undefined (vs : list B64.float) : B64.mean vs = None <-> vs = [].
Proof. destruct vs; simpl; split; congruence. Qed.

(** Addition of floats is commutative. *)
Lemma b64_fadd_comm (x y : B64.float) : B64.fadd x y = B64.fadd y x.
Proof.
  unfold B64.fadd.
  destruct x as [sx|sx| |sx mx ex], y as [sy|sy| |sy my ey];
    try reflexivity; try (destruct sx, sy; reflexivity).
  unfold SFadd. rewrite (Z.min_comm ey ex). f_equal. apply Z.add_comm.
Qed.

(** Adding a float to [0.0] gives the float, with [0.0] for [-0.0]. *)
Lemma b64_fadd_zero_l (x : B64.float) :
  B64.fadd B64.zero x = if B64.is_zero x then B64.zero else x.
Proof. destruct x as [[|]|[|]| |[|] m e]; reflexivity. Qed.

(** The sum of two values does not depend on their order. *)
Lemma b64_total_swap (x y : B64.float) : B64.total [x; y] = B64.total [y; x].
Proof.
  unfold B64.total. cbn [fold_left]. rewrite !b64_fadd_zero_l.
  destruct (B64.is_zero x) eqn:Hx, (B64.is_zero y) eqn:Hy.
  - destruct x as [[|]|[|]| |[|] mx ex]; try discriminate;
      destruct y as [[|]|[|]| |[|] my ey]; try discriminate; reflexivity.
  - destruct x as [[|]|[|]| |[|] mx ex]; try discriminate;
      destruct y as [[|]|[|]| |[|] my ey]; try discriminate; reflexivity.
  - destruct y as [[|]|[|]| |[|] my ey]; try discriminate;
      destruct x as [[|]|[|]| |[|] mx ex]; try discriminate; reflexivity.
  - apply b64_fadd_comm.
Qed.

(** Up to two values, the mean does not depend on their order. *)
Lemma b64_mean_Permutation_2 (vs ws : list B64.float) :
  Permutation vs ws -> (List.length vs <= 2)%nat -> B64.mean vs = B64.mean ws.
Proof.
  intros Hperm Hlen.
  destruct vs as [|x [|y [|z vs]]].
  - apply Permutation_nil in Hperm. now subst.
  - apply Permutation_length_1_inv in Hperm. now subst.
  - apply Permutation_length_2_inv in Hperm as [-> | ->]; [reflexivity|].
    unfold B64.mean. now rewrite b64_total_swap.
  - simpl in Hlen. lia.
Qed.





Lemma b64_defined_values_length (name : string) (l : list (dict B64.ratio)) :
  (List.length (B64.defined_values name l) <= List.length l)%nat.
Proof.
  induction l as [|r l IH]; [apply Nat.le_refl|].
  change (B64.defined_values name (r :: l))
    with ((match Py.get r name with Some v => [v] | None => [] end)
          ++ B64.defined_values name l)%list.
  destruct (Py.get r name); simpl; lia.
Qed.

Lemma b64_benchmark_of_ext (names : list string)
  (l l' : list (dict B64.ratio)) :
  (forall name, B64.mean (B64.defined_values name l)
                = B64.mean (B64.defined_values name l')) ->
  B64.benchmark_of names l = B64.benchmark_of names l'.
Proof.
  intros H. unfold B64.benchmark_of. generalize (@nil (string * B64.ratio)).
  induction names as [|n names IH]; intros start; simpl; [reflexivity|].
  rewrite (H n). apply IH.
Qed.

(** C5, as stated, fails, in two ways.  The identifiers of the result are
    those of the first peer, so moving the empty ratio set of absent facts to
    the front empties the benchmark.  And the sum is taken in peer order in
    binary floating point: peers with a roe of 0.1, 0.2 and 0.3 give
    0.20000000000000004, and in the reverse order 0.19999999999999998. *)
Lemma benchmark_depends_on_order :
  (exists r0 r1,
      B64.calculate_ratios None = B64.Ok r0
      /\ B64.calculate_ratios B64.facts_a = B64.Ok r1
      /\ Permutation [r0; r1] [r1; r0]
      /\ B64.calculate_benchmark_averages [r0; r1]
         <> B64.calculate_benchmark_averages [r1; r0])
  /\ (let p1 := B64.roe_only (B64.decimal 1 (-1)) in
      let p2 := B64.roe_only (B64.decimal 2 (-1)) in
      let p3 := B64.roe_only (B64.decimal 3 (-1)) in
      Permutation [p1; p2; p3] [p3; p2; p1]
      /\ B64.calculate_benchmark_averages [p1; p2; p3]
         = B64.Ok (B64.roe_only (B64.decimal 20000000000000004 (-17)))
      /\ B64.calculate_benchmark_averages [p3; p2; p1]
         = B64.Ok (B64.roe_only (B64.decimal 19999999999999998 (-17)))
      /\ B64.calculate_benchmark_averages [p1; p2; p3]
         <> B64.calculate_benchmark_averages [p3; p2; p1]).
Proof.
  split.
  - do 2 eexists. split; [reflexivity|]. split; [vm_compute; reflexivity|].
    split; [apply perm_swap|]. vm_compute. discriminate.
  - cbv zeta. split.
    + apply Permutation_rev with (l := [_; _; _]).
    + split; [vm_compute; reflexivity|]. split; [vm_compute; reflexivity|].
      vm_compute. discriminate.
Defined.

(** C5, amended.  For a permutation of the peers whose first peer carries
    the same identifiers, in the same order, as the first peer of the
    original list, both benchmarks are computed and carry the same
    identifiers in the same order; an identifier is undefined in one exactly
    when it is undefined in the other; and its two values are equal whenever
    at most two peers define it, or the peers that define it come in the
    same order.  So for at most two peers the two results are the same. *)
Theorem benchmark_permutation_up_to_sum_order (l l' : list (dict B64.ratio)) :
  Permutation l l' ->
  Py.keys (hd [] l) = Py.keys (hd [] l') ->
  exists benchmark benchmark',
    B64.calculate_benchmark_averages l = B64.Ok benchmark
    /\ B64.calculate_benchmark_averages l' = B64.Ok benchmark'
    /\ Py.keys benchmark = Py.keys benchmark'
    /\ (forall name,
          (Py.get benchmark name = None <-> Py.get benchmark' name = None)
          /\ ((List.length (B64.defined_values name l) <= 2)%nat ->
              Py.get benchmark name = Py.get benchmark' name)
          /\ (B64.defined_values name l = B64.defined_values name l' ->
              Py.get benchmark name = Py.get benchmark' name))
    /\ ((List.length l <= 2)%nat -> benchmark = benchmark').
Proof.
  intros Hperm Hkeys. rewrite !b64_calculate_benchmark_averages_closed.
  do 2 eexists. split; [reflexivity|]. split; [reflexivity|].
  destruct l as [|a l], l' as [|a' l'].
  - split; [reflexivity|]. split; [|reflexivity].
    intros name. split; [tauto|]. split; reflexivity.
  - now apply Permutation_nil_cons in Hperm.
  - now apply Permutation_sym, Permutation_nil_cons in Hperm.
  - simpl in Hkeys. rewrite Hkeys.
    pose proof (fun name => b64_defined_values_Permutation name _ _ Hperm)
      as Hdv.
    split; [apply b64_benchmark_of_keys|]. split.
    + intros name. rewrite !b64_get_benchmark_of.
      destruct (in_dec string_dec name (Py.keys a')) as [Hin|Hnin];
        [|split; [tauto|]; split; reflexivity].
      split; [|split].
      * rewrite !b64_mean_undefined. split; intros H.
        -- specialize (Hdv name). rewrite H in Hdv.
           now apply Permutation_nil in Hdv.
        -- specialize (Hdv name). rewrite H in Hdv.
           now apply Permutation_sym, Permutation_nil in Hdv.
      * intros Hlen. now apply b64_mean_Permutation_2.
      * now intros ->.
    + intros Hlen. apply b64_benchmark_of_ext. intros name.
      apply b64_mean_Permutation_2; [apply Hdv|].
      pose proof (b64_defined_values_length name (a :: l)). lia.
Qed.

Lemma benchmark_permutation_up_to_sum_order_witness :
  let ra := [("current_ratio", Some (B64.decimal 1 (-1))); ("pe_ratio", None)] in
  let rb := [("current_ratio", Some (B64.decimal 2 (-1)));
             ("pe_ratio", Some (B64.decimal 20 0))] in
  exists benchmark benchmark',
    B64.calculate_benchmark_averages [ra; rb] = B64.Ok benchmark
    /\ B64.calculate_benchmark_averages [rb; ra] = B64.Ok benchmark'
    /\ Py.keys benchmark = Py.keys benchmark'
    /\ (forall name,
          (Py.get benchmark name = None <-> Py.get benchmark' name = None)
          /\ ((List.length (B64.defined_values name [ra; rb]) <= 2)%nat ->
              Py.get benchmark name = Py.get benchmark' name)
          /\ (B64.defined_values name [ra; rb]
              = B64.defined_values name [rb; ra] ->
              Py.get benchmark name = Py.get benchmark' name))
    /\ ((List.length [ra; rb] <= 2)%nat -> benchmark = benchmark').
Proof.
  intros ra rb.
  apply (benchmark_permutation_up_to_sum_order [ra; rb] [rb; ra]).
  - apply perm_swap.
  - reflexivity.
Defined.





Lemma b64_computed_keys (facts : dict B64.value) (ratios : dict B64.ratio) :
  facts <> [] -> B64.calculate_ratios (Some facts) = B64.Ok ratios ->
  Py.keys ratios = ratio_names.
Proof.
  intros Hne Hr. pose proof (b64_calculate_ratios_run facts Hne) as Hrun.
  cbv zeta in Hrun. rewrite Hr in Hrun. apply Hrun.
Qed.

Lemma b64_computed_peers_keys (facts_list : list (dict B64.value))
  (peers : list (dict B64.ratio)) :
  Forall2 (fun facts ratios =>
             facts <> [] /\ B64.calculate_ratios (Some facts) = B64.Ok ratios)
          facts_list peers ->
  Forall (fun ratios => Py.keys ratios = ratio_names) peers.
Proof.
  induction 1 as [|facts ratios ? ? [Hne Hr] _ IH]; constructor.
  - now apply (b64_computed_keys facts).
  - exact IH.
Qed.

Lemma b64_benchmark_of_entries (names : list string)
  (peers : list (dict B64.ratio)) :
  NoDup names ->
  B64.benchmark_of names peers
  = map (fun n => (n, B64.mean (B64.defined_values n peers))) names.
Proof.
  intros H. unfold B64.benchmark_of.
  now rewrite (fold_set_fresh
                 (fun n => B64.mean (B64.defined_values n peers))).
Qed.

Lemma b64_defined_values_nil (name : string) (peers : list (dict B64.ratio)) :
  B64.defined_values name peers = []
  <-> Forall (fun ratios => Py.get ratios name = None) peers.
Proof.
  induction peers as [|r peers IH].
  - split; constructor.
  - change (B64.defined_values name (r :: peers))
      with ((match Py.get r name with Some v => [v] | None => [] end)
            ++ B64.defined_values name peers)%list.
    split.
    + intros H. apply app_eq_nil in H as [Hr Hp].
      constructor; [|now apply IH]. now destruct (Py.get r name).
    + intros H. inversion H as [|? ? Hr Hp]; subst.
      rewrite Hr. now apply IH.
Qed.

(** X9. When every peer is a ratio set that [calculate_ratios] returned for
    facts that have entries, the benchmark is computed whatever the order of
    the peers; it carries the thirteen identifiers in canonical order, and
    leaves one undefined exactly when no peer defines it. *)
Theorem benchmark_of_computed_peers (facts_list : list (dict B64.value))
  (peers peers' : list (dict B64.ratio)) :
  peers <> [] ->
  Forall2 (fun facts ratios =>
             facts <> [] /\ B64.calculate_ratios (Some facts) = B64.Ok ratios)
          facts_list peers ->
  Permutation peers peers' ->
  exists benchmark,
    B64.calculate_benchmark_averages peers' = B64.Ok benchmark
    /\ Py.keys benchmark = ratio_names
    /\ forall name,
         In name ratio_names ->
         (Py.get benchmark name = None <->
          Forall (fun ratios => Py.get ratios name = None) peers).
Proof.
  intros Hne Hcomputed Hperm.
  pose proof (b64_computed_peers_keys _ _ Hcomputed) as Hkeys.
  rewrite b64_calculate_benchmark_averages_closed.
  destruct peers' as [|first rest].
  { apply Permutation_sym, Permutation_nil in Hperm. congruence. }
  assert (Hfirst : Py.keys first = ratio_names).
  { rewrite Forall_forall in Hkeys. apply Hkeys.
    apply (Permutation_in first (Permutation_sym Hperm)). now left. }
  rewrite Hfirst. eexists. split; [reflexivity|]. split.
  - rewrite b64_benchmark_of_entries by exact ratio_names_NoDup.
    unfold Py.keys. rewrite map_map. apply map_id.
  - intros name Hin. rewrite b64_get_benchmark_of.
    destruct (in_dec string_dec name ratio_names); [|contradiction].
    rewrite b64_mean_undefined, b64_defined_values_nil.
    split; apply Permutation_Forall; [now apply Permutation_sym | exact Hperm].
Qed.

Lemma benchmark_of_computed_peers_witness :
  let fa := [ ("current_assets", Some (B64.Float (B64.decimal 200 0)));
              ("current_liabilities", Some (B64.Float (B64.decimal 100 0))) ] in
  let fb := [ ("inventory", Some (B64.Int 50));
              ("current_liabilities", Some (B64.Int 100)) ] in
  let ra := B64.returned (B64.calculate_ratios (Some fa)) in
  let rb := B64.returned (B64.calculate_ratios (Some fb)) in
  exists benchmark,
    B64.calculate_benchmark_averages [rb; ra] = B64.Ok benchmark
    /\ Py.keys benchmark = ratio_names
    /\ forall name,
         In name ratio_names ->
         (Py.get benchmark name = None <->
          Forall (fun ratios => Py.get ratios name = None) [ra; rb]).
Proof.
  intros fa fb ra rb.
  apply (benchmark_of_computed_peers [fa; fb] [ra; rb] [rb; ra]).
  - discriminate.
  - constructor; [split; [discriminate | vm_compute; reflexivity]|].
    constructor; [split; [discriminate | vm_compute; reflexivity]|].
    constructor.
  - apply perm_swap.
Defined.
